(** * Llimcobe: the lossless image compression benchmark harness

    A shallow embedding of [llimcobe/llimcobe.py] (class [Llimcobe]):
    the model registry ([set_model], [get_model], [del_model]), the
    constructor, and the measurement loop of [benchmark] with its
    printed per-model means.

    Conventions of the embedding.
    - The [models] dictionary is an insertion-ordered association list:
      Python dictionaries iterate in insertion order and [benchmark]
      iterates over it.
    - A hook argument is [None] (Python [None], falsy) or [Some f]
      (a callable, truthy).  A name is [None] or [Some s]; a string is
      truthy when it is not empty.
    - The things the harness does to the outside are explicit: the
      scratch file [self.temp] is the [slot] of the [world], the readings
      of [time.perf_counter] come from an oracle [ticks], and warnings,
      printed lines, thread starts and joins and file operations are
      appended to a [trace].
    - Python numbers of type [float] are read as exact rationals ([Q]);
      a true division by zero raises [ZeroDivisionError] as in Python.
    - An exception is a value of [exn]; code that can raise returns a
      [result]. *)

From Stdlib Require Import List ZArith QArith Qfield String Bool Lia.
From Stdlib Require Import Strings.Byte.
From Stdlib Require Import Sorting.Sorted Sorting.Permutation.
Import ListNotations.
Local Open Scope Z_scope.

Set Implicit Arguments.

(** ** Exceptions and results *)

Inductive exn : Type :=
| ZeroDivisionError
| FileNotFoundError
| AttributeError
| TypeError
| KeyError
| HookError (msg : string).

Inductive result (A : Type) : Type :=
| Ok (a : A)
| Raise (e : exn).

Arguments Ok {A} a.
Arguments Raise {A} e.

Definition is_ok {A} (r : result A) : bool :=
  match r with Ok _ => true | Raise _ => false end.

(** ** Arrays

    What the harness reads of a [numpy.ndarray]: its shape (for
    [np.size]), the byte width of an element ([dtype.itemsize]) and the
    elements. *)

Record ndarray : Type := mk_ndarray {
  shape : list Z;
  itemsize : Z;
  elements : list Z
}.

(** [np.size a]: the product of the dimensions. *)
Definition np_size (a : ndarray) : Z := fold_right Z.mul 1 (shape a).

(** ** The outside world *)

Inductive metric_kind : Type := CompressionRate | CompressionThroughput | DecompressionThroughput.

Inductive hook_kind : Type := HModel | HPreprocess | HSave | HLoad | HCompare.

Inductive event : Type :=
| EvWarn (msg : string)                      (* warnings.warn *)
| EvThreadStart (t : nat)                    (* t1.start(), t2.start() *)
| EvExcepthook (t : nat) (e : exn)           (* the target of thread t raised e *)
| EvThreadJoin (t : nat)                     (* t1.join(), t2.join() *)
| EvCall (name : string) (h : hook_kind)     (* the harness calls a hook of a model *)
| EvGetsize (bytes : Z)                      (* os.path.getsize(self.temp) *)
| EvRemove                                   (* os.remove(self.temp) *)
| EvPrint (name : string) (k : metric_kind) (mean : Q)
| EvPlot (axis : nat * nat) (name : string) (ys : list Q)
| EvScatter (axis : nat * nat) (name : string) (x y : Q) (marker : string).

Record world : Type := mk_world {
  tempdir : bool;                 (* does the directory of self.temp exist *)
  slot : option (list byte);      (* the content of the file self.temp, if it exists *)
  now : nat;                      (* how many times perf_counter was read *)
  trace : list event
}.

Definition set_slot (s : option (list byte)) (w : world) : world :=
  mk_world (tempdir w) s (now w) (trace w).

Definition set_tempdir (b : bool) (w : world) : world :=
  mk_world b (slot w) (now w) (trace w).

(** ** A state and exception monad over the world *)

Definition M (A : Type) : Type := world -> result A * world.

Definition ret {A} (a : A) : M A := fun w => (Ok a, w).

Definition raise {A} (e : exn) : M A := fun w => (Raise e, w).

Definition bind {A B} (m : M A) (k : A -> M B) : M B :=
  fun w => match m w with
           | (Ok a, w') => k a w'
           | (Raise e, w') => (Raise e, w')
           end.

Declare Scope monad_scope.
Delimit Scope monad_scope with monad.
Notation "x <- m ;; k" := (bind m (fun x => k))
  (at level 61, m at next level, right associativity) : monad_scope.
Notation "m ;;; k" := (bind m (fun _ => k))
  (at level 61, right associativity) : monad_scope.
Local Open Scope monad_scope.

(** A pure computation that can raise, run inside the monad. *)
Definition lift {A} (r : result A) : M A := fun w => (r, w).

Definition emit (ev : event) : M unit :=
  fun w => (Ok tt, mk_world (tempdir w) (slot w) (now w) (trace w ++ [ev])).

(** [try: m except: pass]: a bare [except] catches every exception; what
    [m] did before it raised stays done. *)
Definition try_except_pass (m : M unit) : M unit :=
  fun w => match m w with
           | (Ok _, w') => (Ok tt, w')
           | (Raise _, w') => (Ok tt, w')
           end.

(** [for x in l: body], threading an accumulator. *)
Fixpoint for_each {A S} (l : list A) (body : A -> S -> M S) (s : S) : M S :=
  match l with
  | [] => ret s
  | x :: l' => s' <- body x s ;; for_each l' body s'
  end.

(** [list(map(f, l))]: eager, left to right, stops at the first exception. *)
Fixpoint map_M {A B} (f : A -> M B) (l : list A) : M (list B) :=
  match l with
  | [] => ret []
  | x :: l' => y <- f x ;; ys <- map_M f l' ;; ret (y :: ys)
  end.

(** ** Python arithmetic on the measured numbers *)

(** [a / b] on numbers: true division. *)
Definition py_truediv (a b : Q) : result Q :=
  if Qeq_bool b 0 then Raise ZeroDivisionError else Ok (a / b)%Q.

(** [sum(l)]. *)
Definition py_sum (l : list Q) : Q := fold_left Qplus l 0%Q.

(** [sum(l) / len(l)]. *)
Definition mean (l : list Q) : result Q :=
  py_truediv (py_sum l) (inject_Z (Z.of_nat (List.length l))).

(** [zip(a, b, c)]: stops at the shortest. *)
Fixpoint zip3 {A B C} (a : list A) (b : list B) (c : list C) : list (A * B * C) :=
  match a, b, c with
  | x :: a', y :: b', z :: c' => (x, y, z) :: zip3 a' b' c'
  | _, _, _ => []
  end.

(** [range(n)]; empty when [n] is not positive. *)
Definition py_range (n : Z) : list Z := map Z.of_nat (seq 0 (Z.to_nat n)).

(** Truthiness of a name. *)
Definition truthy_name (name : option string) : bool :=
  match name with
  | Some s => negb (String.eqb s EmptyString)
  | None => false
  end.

(** Truthiness of a hook argument: [None] is falsy, a callable truthy. *)
Definition truthy {F} (h : option F) : bool :=
  match h with Some _ => true | None => false end.

(** Calling a hook value: calling [None] raises [TypeError]. *)
Definition call {A B} (h : option (A -> result B)) (a : A) : result B :=
  match h with
  | Some f => f a
  | None => Raise TypeError
  end.

(** ** Insertion-ordered dictionaries

    [d[k] = v] keeps the position of a key that is already there and
    appends a new one; iteration follows the list. *)

Fixpoint dict_get {V} (k : string) (d : list (string * V)) : option V :=
  match d with
  | [] => None
  | (k', v) :: d' => if String.eqb k k' then Some v else dict_get k d'
  end.

Definition dict_mem {V} (k : string) (d : list (string * V)) : bool :=
  match dict_get k d with Some _ => true | None => false end.

Fixpoint dict_set {V} (k : string) (v : V) (d : list (string * V)) : list (string * V) :=
  match d with
  | [] => [(k, v)]
  | (k', v') :: d' =>
      if String.eqb k k' then (k', v) :: d' else (k', v') :: dict_set k v d'
  end.

Fixpoint dict_del {V} (k : string) (d : list (string * V)) : list (string * V) :=
  match d with
  | [] => []
  | (k', v') :: d' =>
      if String.eqb k k' then dict_del k d' else (k', v') :: dict_del k d'
  end.

(** [l.sort()] on numbers: ascending and stable. *)
Fixpoint insert_sorted (x : Q) (l : list Q) : list Q :=
  match l with
  | [] => [x]
  | y :: l' => if Qle_bool y x then y :: insert_sorted x l' else x :: y :: l'
  end.

Definition py_sort (l : list Q) : list Q :=
  fold_left (fun acc x => insert_sorted x acc) l [].

Section Harness.

(** The values that hooks exchange: what [preprocess] returns (the type
    [T1] of the source) and what [model] returns ([T2]).  Python does not
    separate them, one type of objects stands for both. *)
Variable obj : Type.

(** The truth value of [x == y] on these objects, which can raise (the
    truth value of an array comparison is an error in numpy). *)
Variable py_eq : obj -> obj -> result bool.

(** The attribute [x.show]: [None] when the object has no such attribute
    (the lookup raises [AttributeError]), otherwise what calling it
    results in. *)
Variable show : obj -> option (result unit).

(** The successive readings of [time.perf_counter()]. *)
Variable ticks : nat -> Q.

(** *** Hooks

    [save] and [load] are handed the path [self.temp]: they act on the
    scratch slot.  The other hooks see only their arguments. *)

Definition model_hook : Type := obj -> result obj.
Definition preprocess_hook : Type := ndarray -> result obj.
Definition save_hook : Type :=
  obj -> option (list byte) -> result unit * option (list byte).
Definition load_hook : Type :=
  option (list byte) -> result ndarray * option (list byte).
Definition compare_hook : Type := obj -> obj -> result bool.

(** A value of [self.models]. *)
Record entry : Type := mk_entry {
  model : option model_hook;
  preprocess : option preprocess_hook;
  save : option save_hook;
  load : option load_hook;
  compare : compare_hook
}.

(** The fields of the object. [self.temp] is a fixed path, the [slot] of
    the world. *)
Record llimcobe : Type := mk_llimcobe {
  models : list (string * entry);
  dataset : list ndarray;
  lens : list Z
}.

(** *** The constructor *)

(** [__init__], given what [prepare_dataset] returns. *)
Definition init (prepare_dataset : list ndarray) (w : world) : llimcobe * world :=
  let self := mk_llimcobe [] prepare_dataset (map np_size prepare_dataset) in
  let w1 := if negb (tempdir w) then set_tempdir true w else w in
  let w2 := match slot w1 with
            | Some _ => set_slot None w1
            | None => w1
            end in
  (self, w2).

(** *** The registry *)

Definition set_model (self : llimcobe) (name : option string)
    (model : option model_hook) (preprocess : option preprocess_hook)
    (save : option save_hook) (load : option load_hook)
    (compare : option compare_hook) : bool * llimcobe :=
  if (truthy_name name && truthy model && truthy save && truthy load)
     || (truthy_name name && truthy save && truthy load)
  then
    match name with
    | Some s =>
        let e := mk_entry model preprocess save load
                   (match compare with
                    | Some c => c
                    | None => fun x y => py_eq x y
                    end) in
        (true, mk_llimcobe (dict_set s e (models self)) (dataset self) (lens self))
    | None => (false, self)   (* not reached: a truthy name is a string *)
    end
  else (false, self).

(** What [get_model] returns. *)
Inductive got : Type :=
| GotModel (f : model_hook)
| GotSave (f : option save_hook)
| GotFalse.

Definition get_model (self : llimcobe) (name : option string) : got :=
  match name with
  | Some s =>
      match dict_get s (models self) with
      | Some e =>
          match model e with
          | Some m => GotModel m
          | None => GotSave (save e)
          end
      | None => GotFalse
      end
  | None => GotFalse
  end.

(** [name in self.models.keys()]. *)
Definition registered (self : llimcobe) (name : option string) : bool :=
  match name with
  | Some s => dict_mem s (models self)
  | None => false
  end.

Definition del_model (self : llimcobe) (name : option string) : bool * llimcobe :=
  match name with
  | Some s =>
      if dict_mem s (models self)
      then (true, mk_llimcobe (dict_del s (models self)) (dataset self) (lens self))
      else (false, self)
  | None => (false, self)
  end.

(** *** What the harness does to the world *)

(** [time.perf_counter()]. *)
Definition perf_counter : M Q :=
  fun w => (Ok (ticks (now w)),
            mk_world (tempdir w) (slot w) (S (now w)) (trace w)).

(** Calls of the hooks of the model [name]. *)
Definition call_model (name : string) (h : model_hook) (x : obj) : M obj :=
  emit (EvCall name HModel) ;;; lift (h x).

Definition call_preprocess (name : string) (h : option preprocess_hook)
    (a : ndarray) : M obj :=
  emit (EvCall name HPreprocess) ;;; lift (call h a).

Definition call_compare (name : string) (h : compare_hook) (x y : obj) : M bool :=
  emit (EvCall name HCompare) ;;; lift (h x y).

(** [save(x, self.temp)]. *)
Definition call_save (name : string) (h : option save_hook) (x : obj) : M unit :=
  emit (EvCall name HSave) ;;;
  fun w => match h with
           | Some f => let (r, s) := f x (slot w) in (r, set_slot s w)
           | None => (Raise TypeError, w)
           end.

(** [load(self.temp)]. *)
Definition call_load (name : string) (h : option load_hook) : M ndarray :=
  emit (EvCall name HLoad) ;;;
  fun w => match h with
           | Some f => let (r, s) := f (slot w) in (r, set_slot s w)
           | None => (Raise TypeError, w)
           end.

(** [os.path.getsize(self.temp)]. *)
Definition getsize : M Z :=
  fun w => match slot w with
           | Some content =>
               let n := Z.of_nat (List.length content) in
               (emit (EvGetsize n) ;;; ret n) w
           | None => (Raise FileNotFoundError, w)
           end.

(** [os.remove(self.temp)]. *)
Definition remove : M unit :=
  fun w => match slot w with
           | Some _ => emit EvRemove (set_slot None w)
           | None => (Raise FileNotFoundError, w)
           end.

(** *** The side-by-side display of a mismatch

    [Thread(target=x.show)] looks the attribute up in the calling thread.
    An exception raised by the target inside its thread is reported by the
    thread's excepthook and never reaches the caller of [join]. *)

Definition getattr_show (x : obj) : M (result unit) :=
  match show x with
  | Some r => ret r
  | None => raise AttributeError
  end.

Definition thread_join (t : nat) (r : result unit) : M unit :=
  match r with
  | Ok _ => ret tt
  | Raise e => emit (EvExcepthook t e)
  end ;;;
  emit (EvThreadJoin t).

Definition show_both (image loaded : obj) : M unit :=
  t1 <- getattr_show image ;;
  emit (EvThreadStart 1) ;;;
  t2 <- getattr_show loaded ;;
  emit (EvThreadStart 2) ;;;
  thread_join 1 t1 ;;;
  thread_join 2 t2.

Definition mismatch_warning : string :=
  "Pre-compressed image and post-decompressed image don't match".

(** What [show_both] leaves on the trace, in both the case where it
    raises and the case where it returns. *)
Definition excepthook_events (t : nat) (r : result unit) : list event :=
  match r with
  | Ok _ => []
  | Raise e => [EvExcepthook t e]
  end.

Definition display_events (image loaded : obj) : list event :=
  match show image with
  | None => []
  | Some r1 =>
      EvThreadStart 1 ::
      match show loaded with
      | None => []
      | Some r2 =>
          EvThreadStart 2 ::
          excepthook_events 1 r1 ++ [EvThreadJoin 1] ++
          excepthook_events 2 r2 ++ [EvThreadJoin 2]
      end
  end.

(** Lines 118 to 132 of [benchmark]: what follows the call of [compare],
    given its truth value [same]; returns the new [lossy_flag]. *)
Definition fidelity_check (image loaded : obj) (same lossy_flag : bool) : M bool :=
  if negb same && negb lossy_flag
  then emit (EvWarn mismatch_warning) ;;;
       try_except_pass (show_both image loaded) ;;;
       ret true
  else ret lossy_flag.

(** What [fidelity_check] leaves on the trace. *)
Definition fidelity_events (image loaded : obj) (same lossy_flag : bool)
  : list event :=
  if negb same && negb lossy_flag
  then EvWarn mismatch_warning :: display_events image loaded
  else [].

(** *** The measurement loop *)

(** The three lists filled for one model. *)
Record metrics : Type := mk_metrics {
  bpsp : list Q;
  compression_throughput : list Q;
  decompression_throughput : list Q
}.

(** Lines 106 to 110 of [benchmark]: the timed compression. *)
Definition compress (name : string) (e : entry) (image : obj) : M unit :=
  match model e with
  | Some m =>
      compressed <- call_model name m image ;;
      call_save name (save e) compressed
  | None => call_save name (save e) image
  end.

(** The body of the inner loop of [benchmark], for one
    [(image, length, _)] of the zip; the state is the three lists and
    [lossy_flag]. *)
Definition measure (name : string) (e : entry) (item : obj * Z * Z)
    (st : metrics * bool) : M (metrics * bool) :=
  let '(image, length, _) := item in
  let '(ms, lossy_flag) := st in
  start_time <- perf_counter ;;
  compress name e image ;;;
  stop_time <- perf_counter ;;
  let elapsed_time1 := (stop_time - start_time)%Q in
  start_time <- perf_counter ;;
  loaded <- call_load name (load e) ;;
  stop_time <- perf_counter ;;
  let elapsed_time2 := (stop_time - start_time)%Q in
  let pixel_size := itemsize loaded * 8 in
  loaded <- call_preprocess name (preprocess e) loaded ;;
  same <- call_compare name (compare e) image loaded ;;
  lossy_flag <- fidelity_check image loaded same lossy_flag ;;
  size <- getsize ;;
  let image_size := size * 8 in
  remove ;;;
  b <- lift (py_truediv (inject_Z image_size) (inject_Z length)) ;;
  megabytes <- lift (py_truediv (inject_Z (length * pixel_size))
                                (inject_Z (8 * 10 ^ 6))) ;;
  c <- lift (py_truediv megabytes elapsed_time1) ;;
  megabytes <- lift (py_truediv (inject_Z (length * pixel_size))
                                (inject_Z (8 * 10 ^ 6))) ;;
  d <- lift (py_truediv megabytes elapsed_time2) ;;
  ret (mk_metrics (bpsp ms ++ [b])
                  (compression_throughput ms ++ [c])
                  (decompression_throughput ms ++ [d]),
       lossy_flag).

Definition no_metrics : metrics := mk_metrics [] [] [].

(** The three dictionaries [all_bpsp], [all_throughput], [all_dthroughput]. *)
Record all_metrics : Type := mk_all {
  all_bpsp : list (string * list Q);
  all_throughput : list (string * list Q);
  all_dthroughput : list (string * list Q)
}.

(** The body of [for name in self.models] in the measurement part. *)
Definition benchmark_model (self : llimcobe) (num_images : Z)
    (item : string * entry) (st : all_metrics * bool) : M (all_metrics * bool) :=
  let '(name, e) := item in
  let '(al, lossy_flag) := st in
  dataset' <- map_M (call_preprocess name (preprocess e)) (dataset self) ;;
  r <- for_each (zip3 dataset' (lens self) (py_range num_images))
                (measure name e) (no_metrics, lossy_flag) ;;
  let '(ms, lossy_flag) := r in
  ret (mk_all (dict_set name (bpsp ms) (all_bpsp al))
              (dict_set name (compression_throughput ms) (all_throughput al))
              (dict_set name (decompression_throughput ms) (all_dthroughput al)),
       lossy_flag).

(** The measurement part of [benchmark]: from [lossy_flag = False] to the
    end of the loop over the models. *)
Definition benchmark_measure (self : llimcobe) (num_images : Z)
  : M (all_metrics * bool) :=
  for_each (models self) (benchmark_model self num_images)
           (mk_all [] [] [], false).

(** *** The report *)

(** [d[name]] on a dictionary of lists. *)
Definition lookup (name : string) (d : list (string * list Q)) : M (list Q) :=
  match dict_get name d with
  | Some l => ret l
  | None => raise KeyError
  end.

(** The body of the loop that prints the three means of a model.  The
    arguments of [format] are evaluated before [print] is called. *)
Definition report_model (al : all_metrics) (item : string * entry) (_ : unit)
  : M unit :=
  let '(name, _) := item in
  l <- lookup name (all_bpsp al) ;;
  m <- lift (mean l) ;;
  emit (EvPrint name CompressionRate m) ;;;
  l <- lookup name (all_throughput al) ;;
  m <- lift (mean l) ;;
  emit (EvPrint name CompressionThroughput m) ;;;
  l <- lookup name (all_dthroughput al) ;;
  m <- lift (mean l) ;;
  emit (EvPrint name DecompressionThroughput m).

Definition report (self : llimcobe) (al : all_metrics) : M unit :=
  for_each (models self) (report_model al) tt.

(** *** The plots

    matplotlib is a sink: what it is handed is put on the trace. *)

Definition markers : list string :=
  ["o"; "v"; "^"; "<"; ">"; "8"; "s"; "p"; "*"; "h"; "H"; "D"; "d"; "P"; "X"]%string.

(** [for name in self.models: d[name].sort(); axs[axis].plot(d[name], label=name)];
    the lists are sorted in place. *)
Definition plot_sorted (self : llimcobe) (axis : nat * nat)
    (d : list (string * list Q)) : M (list (string * list Q)) :=
  for_each (models self)
           (fun (item : string * entry) d =>
              let '(name, _) := item in
              l <- lookup name d ;;
              let l := py_sort l in
              emit (EvPlot axis name l) ;;;
              ret (dict_set name l d))
           d.

(** [for ix, name in enumerate(self.models): axs[axis].scatter(mean of xs, mean of ys, ...)]. *)
Definition scatter (self : llimcobe) (axis : nat * nat)
    (xs ys : list (string * list Q)) : M unit :=
  for_each (combine (seq 0 (List.length (models self))) (models self))
           (fun (item : nat * (string * entry)) (_ : unit) =>
              let '(ix, (name, _)) := item in
              lx <- lookup name xs ;;
              x <- lift (mean lx) ;;
              ly <- lookup name ys ;;
              y <- lift (mean ly) ;;
              emit (EvScatter axis name x y
                      (nth (ix mod List.length markers) markers EmptyString)))
           tt.

(** [benchmark(num_images)].  Creating the figure, the legends and axis
    settings and [plt.show()] act on matplotlib only and leave nothing
    here. *)
Definition benchmark (self : llimcobe) (num_images : Z) : M unit :=
  r <- benchmark_measure self num_images ;;
  let '(al, _) := r in
  report self al ;;;
  sorted_bpsp <- plot_sorted self (0, 0)%nat (all_bpsp al) ;;
  sorted_throughput <- plot_sorted self (0, 1)%nat (all_throughput al) ;;
  sorted_dthroughput <- plot_sorted self (0, 2)%nat (all_dthroughput al) ;;
  scatter self (1, 1)%nat sorted_bpsp sorted_throughput ;;;
  scatter self (1, 2)%nat sorted_bpsp sorted_dthroughput.

End Harness.

Arguments GotFalse {obj}.

(** ** Reading a trace *)

(** The byte sizes that [os.path.getsize] returned, in order. *)
Fixpoint getsizes (tr : list event) : list Z :=
  match tr with
  | [] => []
  | EvGetsize n :: tr' => n :: getsizes tr'
  | _ :: tr' => getsizes tr'
  end.

(** How many warnings were emitted. *)
Fixpoint warnings (tr : list event) : nat :=
  match tr with
  | [] => O
  | EvWarn _ :: tr' => S (warnings tr')
  | _ :: tr' => warnings tr'
  end.

(** The events of the mismatch diagnostic: the warning and what the
    display threads do. *)
Definition is_diagnostic (ev : event) : bool :=
  match ev with
  | EvWarn _ | EvThreadStart _ | EvExcepthook _ _ | EvThreadJoin _ => true
  | _ => false
  end.

Definition diagnostics (tr : list event) : list event :=
  filter is_diagnostic tr.

(** The entry [e] with a predicate that finds every pair equal. *)
Definition matching {obj} (e : entry obj) : entry obj :=
  mk_entry (model e) (preprocess e) (save e) (load e) (fun _ _ => Ok true).

(** ** What the constructor and the registry maintain *)

(** The names of [self.models] are distinct (it is a dictionary) and
    [self.lens] holds the element counts of the dataset. *)
Definition well_formed {obj} (self : llimcobe obj) : Prop :=
  NoDup (map fst (models self)) /\ lens self = map np_size (dataset self).

(** The dictionary [d] has a list of [k] numbers under [name]. *)
Definition filled (k : nat) (d : list (string * list Q)) (name : string) : Prop :=
  exists l, dict_get name d = Some l /\ List.length l = k.

(** The three dictionaries have [k] numbers under [name]. *)
Definition measured (k : nat) (al : all_metrics) (name : string) : Prop :=
  filled k (all_bpsp al) name /\
  filled k (all_throughput al) name /\
  filled k (all_dthroughput al) name.

(** ** The artifact behind a measurement

    [artifact_of e start image content]: in an iteration of the inner loop
    for the preprocessed [image], entered with the slot holding [start]
    (the first iteration) or nothing (the later ones, after [os.remove]),
    the [save] hook of [e] is given the image, or what the [model] hook
    makes of it, and leaves [s1] in the slot; the [load] hook reads [s1]
    and leaves the file [content] there.  [content] is what the slot holds
    when [os.path.getsize(self.temp)] is evaluated. *)
Definition artifact_of {obj} (e : entry obj) (start : option (list byte))
    (image : obj) (content : list byte) : Prop :=
  exists sf lf x s0 s1 loaded,
    save e = Some sf /\ load e = Some lf /\
    match model e with
    | Some m => m image = Ok x
    | None => x = image
    end /\
    (s0 = start \/ s0 = None) /\
    sf x s0 = (Ok tt, s1) /\
    lf s1 = (Ok loaded, Some content).

(** ** A concrete harness

    Arrays as the objects, a dataset of three 2x2x1 images of 8-bit
    elements, and a few codecs. *)

Module Ex.

Definition byte_of_Z (z : Z) : byte :=
  match Byte.of_N (Z.to_N z) with
  | Some b => b
  | None => x00
  end.

Definition Z_of_byte (b : byte) : Z := Z.of_N (Byte.to_N b).

Definition list_eqb (a b : list Z) : bool :=
  if list_eq_dec Z.eq_dec a b then true else false.

Definition array_eq (x y : ndarray) : result bool :=
  Ok (list_eqb (shape x) (shape y) && Z.eqb (itemsize x) (itemsize y)
      && list_eqb (elements x) (elements y)).

Definition image (k : Z) : ndarray :=
  mk_ndarray [2; 2; 1] 1 [k; k + 1; k + 2; k + 3].

Definition images : list ndarray := [image 0; image 10; image 20].

Definition clock (n : nat) : Q := inject_Z (Z.of_nat n).

Definition no_show (_ : ndarray) : option (result unit) := None.

Definition broken_show (_ : ndarray) : option (result unit) :=
  Some (Raise (HookError "no display")).

Definition identity : preprocess_hook ndarray := fun a => Ok a.

(** Fails on the third image of [images]. *)
Definition picky : preprocess_hook ndarray :=
  fun a => if list_eqb (elements a) [20; 21; 22; 23]
           then Raise (HookError "unsupported image")
           else Ok a.

Definition save_raw : save_hook ndarray :=
  fun x _ => (Ok tt, Some (map byte_of_Z (elements x))).

(** Writes half as many bytes as the image has elements. *)
Definition save_half : save_hook ndarray :=
  fun x _ => (Ok tt, Some (repeat x00 (Z.to_nat (np_size x / 2)))).

Definition load_raw : load_hook :=
  fun s => match s with
           | Some content => (Ok (mk_ndarray [2; 2; 1] 1 (map Z_of_byte content)), s)
           | None => (Raise FileNotFoundError, s)
           end.

(** Flips the lowest bit of every element. *)
Definition load_flipped : load_hook :=
  fun s => match s with
           | Some content =>
               (Ok (mk_ndarray [2; 2; 1] 1
                      (map (fun b => Z.lxor 1 (Z_of_byte b)) content)), s)
           | None => (Raise FileNotFoundError, s)
           end.

Definition lossless : entry ndarray :=
  mk_entry None (Some identity) (Some save_raw) (Some load_raw) array_eq.

Definition lossy : entry ndarray :=
  mk_entry None (Some identity) (Some save_raw) (Some load_flipped) array_eq.

Definition halving : entry ndarray :=
  mk_entry None (Some identity) (Some save_half) (Some load_raw) array_eq.

(** A world with a stale artifact in the slot. *)
Definition stale : world := mk_world true (Some [x01; x02]) 0 [].

Definition fresh : world := mk_world true None 0 [].

Definition harness : llimcobe ndarray := fst (init ndarray images stale).

Definition with_model (name : string) (e : entry ndarray) (self : llimcobe ndarray)
  : llimcobe ndarray :=
  snd (set_model array_eq self (Some name) (model e) (preprocess e)
         (save e) (load e) (Some (compare e))).

(** A codec whose [preprocess] refuses the third image. *)
Definition fussy : entry ndarray :=
  mk_entry None (Some picky) (Some save_raw) (Some load_raw) array_eq.

(** The lossy codec registered first, then the halving one. *)
Definition two_codecs : llimcobe ndarray :=
  with_model "half" halving (with_model "flip" lossy harness).

Definition no_results : all_metrics := mk_all [] [] [].

(** A codec that writes nothing to the slot and loads the same image
    from elsewhere. *)
Definition save_nothing : save_hook ndarray := fun _ _ => (Ok tt, None).

Definition load_fixed : load_hook := fun s => (Ok (image 0), s).

Definition silent : entry ndarray :=
  mk_entry None (Some identity) (Some save_nothing) (Some load_fixed) array_eq.

(** A codec whose comparison raises. *)
Definition refusing : compare_hook ndarray :=
  fun _ _ => Raise (HookError "cannot compare").

Definition uncomparable : entry ndarray :=
  mk_entry None (Some identity) (Some save_raw) (Some load_raw) refusing.

(** A clock that stands still. *)
Definition frozen (_ : nat) : Q := 0%Q.

(** The lossless codec alone. *)
Definition one_codec : llimcobe ndarray := with_model "raw" lossless harness.

(** The lossy codec with a comparison that accepts everything. *)
Definition unchecked : llimcobe ndarray :=
  with_model "flip" (matching lossy) harness.

(** Lists as a measurement could leave them. *)
Definition sample_results : all_metrics :=
  mk_all [("raw"%string, [8; 2; 5]%Q)]
         [("raw"%string, [1 # 2; 1 # 4; 1 # 8]%Q)]
         [("raw"%string, [1; 1; 1]%Q)].

End Ex.

(** * Properties *)

(** ** Arrays *)

(** [np.size] of an array of shape height x width x channels. *)
Lemma np_size_height_width_channels (H W C isz : Z) (els : list Z) :
  np_size (mk_ndarray [H; W; C] isz els) = H * W * C.
Proof. unfold np_size. simpl. lia. Qed.

(** ** The monad *)

Lemma bind_ok {A B} (m : M A) (k : A -> M B) w b w' :
  bind m k w = (Ok b, w') ->
  exists a w1, m w = (Ok a, w1) /\ k a w1 = (Ok b, w').
Proof.
  unfold bind. destruct (m w) as [[a | e] w1]; intros H.
  - exists a, w1. split; [reflexivity | exact H].
  - discriminate H.
Qed.

Lemma bind_raise {A B} (m : M A) (k : A -> M B) w e w' :
  m w = (Raise e, w') -> bind m k w = (Raise e, w').
Proof. intros H. unfold bind. rewrite H. reflexivity. Qed.

Lemma bind_step {A B} (m : M A) (k : A -> M B) w a w1 :
  m w = (Ok a, w1) -> bind m k w = k a w1.
Proof. intros H. unfold bind. rewrite H. reflexivity. Qed.

Lemma lift_ok {A} (r : result A) w a w' :
  lift r w = (Ok a, w') -> r = Ok a /\ w' = w.
Proof. unfold lift. intros H. inversion H. split; reflexivity. Qed.

Lemma emit_ok ev w u w' :
  emit ev w = (Ok u, w') ->
  w' = mk_world (tempdir w) (slot w) (now w) (trace w ++ [ev]).
Proof. unfold emit. intros H. inversion H. reflexivity. Qed.

(** Splits a hypothesis [bind m k w = (Ok b, w')] into its two steps. *)
Ltac inv_bind H :=
  let a := fresh "a" in
  let w1 := fresh "w" in
  let H1 := fresh "Hm" in
  let H2 := fresh "Hk" in
  apply bind_ok in H; destruct H as (a & w1 & H1 & H2).

Tactic Notation "step" hyp(H) "as" ident(a) ident(w) ident(Hm) :=
  apply bind_ok in H; destruct H as (a & w & Hm & H).

Lemma py_truediv_ok a b q :
  py_truediv a b = Ok q -> q = (a / b)%Q /\ ~ (b == 0)%Q.
Proof.
  unfold py_truediv. destruct (Qeq_bool b 0) eqn:E; intros H; [discriminate H |].
  inversion H. split; [reflexivity |].
  intros Hb. apply Qeq_bool_iff in Hb. congruence.
Qed.

Lemma py_truediv_zero a : py_truediv a 0 = Raise ZeroDivisionError.
Proof. reflexivity. Qed.

Lemma mean_empty : mean [] = Raise ZeroDivisionError.
Proof. reflexivity. Qed.

(** ** Loops *)

Lemma for_each_app {A S} (body : A -> S -> M S) l1 l2 s w :
  for_each (l1 ++ l2) body s w =
  bind (for_each l1 body s) (for_each l2 body) w.
Proof.
  revert s w. induction l1 as [| x l1 IH]; intros s w; simpl.
  - reflexivity.
  - unfold bind in *. destruct (body x s w) as [[s1 | e] w1].
    + apply IH.
    + reflexivity.
Qed.

(** A property of the loop state and the world that every completed
    iteration keeps holds when the loop completes. *)
Lemma for_each_invariant {A S} (body : A -> S -> M S) (I : S -> world -> Prop) l :
  (forall x s w s' w', In x l -> I s w -> body x s w = (Ok s', w') -> I s' w') ->
  forall s w s' w',
    I s w -> for_each l body s w = (Ok s', w') -> I s' w'.
Proof.
  induction l as [| x l IH]; intros Hbody s w s' w' Hi H; simpl in H.
  - inversion H. subst. exact Hi.
  - inv_bind H.
    apply IH with (s := a) (w := w0).
    + intros y t v t' v' Hy. apply Hbody. right. exact Hy.
    + eapply Hbody; [left; reflexivity | exact Hi | exact Hm].
    + exact Hk.
Qed.

(** An iteration that raises whatever the state ends the loop with an
    exception. *)
Lemma for_each_raises {A S} (body : A -> S -> M S) l x :
  In x l ->
  (forall s w, exists e w', body x s w = (Raise e, w')) ->
  forall s w, exists e w', for_each l body s w = (Raise e, w').
Proof.
  induction l as [| y l IH]; intros Hin Hx s w; [destruct Hin |].
  simpl. destruct Hin as [-> | Hin].
  - destruct (Hx s w) as (e & w' & Hr). exists e, w'.
    apply bind_raise. exact Hr.
  - unfold bind. destruct (body y s w) as [[s1 | e] w1].
    + apply IH; assumption.
    + exists e, w1. reflexivity.
Qed.

(** ** Dictionaries *)

Lemma dict_get_set {V} (k : string) (v : V) d :
  dict_get k (dict_set k v d) = Some v.
Proof.
  induction d as [| [k' v'] d IH]; simpl.
  - rewrite String.eqb_refl. reflexivity.
  - destruct (String.eqb k k') eqn:E; simpl; rewrite E; [reflexivity | exact IH].
Qed.

Lemma dict_get_set_other {V} (k k' : string) (v : V) d :
  k' <> k -> dict_get k' (dict_set k v d) = dict_get k' d.
Proof.
  intros Hne. induction d as [| [k0 v0] d IH]; simpl.
  - apply String.eqb_neq in Hne. rewrite Hne. reflexivity.
  - destruct (String.eqb k k0) eqn:E; simpl.
    + apply String.eqb_eq in E. subst k0.
      apply String.eqb_neq in Hne. rewrite Hne. reflexivity.
    + rewrite IH. reflexivity.
Qed.

Lemma dict_get_del {V} (k : string) (d : list (string * V)) :
  dict_get k (dict_del k d) = None.
Proof.
  induction d as [| [k' v'] d IH]; simpl.
  - reflexivity.
  - destruct (String.eqb k k') eqn:E; simpl; [exact IH | rewrite E; exact IH].
Qed.

(** ** The registry *)

Section Registry.

Context {obj : Type}.
Variable py_eq : obj -> obj -> result bool.

Lemma set_model_condition (name : option string) (m s l : bool) :
  (truthy_name name && m && s && l) || (truthy_name name && s && l)
  = truthy_name name && s && l.
Proof. destruct (truthy_name name), m, s, l; reflexivity. Qed.

(** C3. [set_model] returns true exactly when [name], [save] and [load]
    are truthy, whatever [model], [preprocess] and [compare] are; then the
    entry is stored under the name; otherwise the object is left as it
    was.  [set_model] is a total function into the booleans: it has no
    exception to raise. *)
Theorem set_model_accepts_iff (self : llimcobe obj) (name : option string)
    (m : option (model_hook obj)) (p : option (preprocess_hook obj))
    (s : option (save_hook obj)) (l : option load_hook)
    (c : option (compare_hook obj)) :
  let r := set_model py_eq self name m p s l c in
  let accepted := truthy_name name && truthy s && truthy l in
  fst r = accepted /\
  (if accepted
   then exists k e, name = Some k /\
          dict_get k (models (snd r)) = Some e /\
          model e = m /\ preprocess e = p /\ save e = s /\ load e = l
   else snd r = self).
Proof.
  unfold set_model. rewrite set_model_condition.
  destruct (truthy_name name && truthy s && truthy l) eqn:E; simpl.
  - destruct name as [k |]; [| discriminate E]. simpl.
    split; [reflexivity |].
    eexists k, _. split; [reflexivity |].
    split; [apply dict_get_set |]. simpl. repeat split.
  - split; reflexivity.
Qed.

(** C4. After an accepted [set_model], [get_model] of the name returns the
    model hook when one was given and otherwise the save hook; [del_model]
    of a registered name returns true and [get_model] then returns false;
    for a name that is not registered [get_model] returns false and
    [del_model] returns false and changes nothing. *)
Theorem get_model_del_model (self self' : llimcobe obj) (name : option string)
    (m : option (model_hook obj)) (p : option (preprocess_hook obj))
    (s : option (save_hook obj)) (l : option load_hook)
    (c : option (compare_hook obj)) :
  set_model py_eq self name m p s l c = (true, self') ->
  get_model self' name
    = match m with
      | Some f => GotModel f
      | None => GotSave s
      end
  /\ fst (del_model self' name) = true
  /\ get_model (snd (del_model self' name)) name = GotFalse
  /\ forall (r : llimcobe obj) (n : option string),
       if registered r n
       then fst (del_model r n) = true
            /\ get_model (snd (del_model r n)) n = GotFalse
       else get_model r n = GotFalse /\ del_model r n = (false, r).
Proof.
  intros H.
  assert (Hall : forall (r : llimcobe obj) (n : option string),
             if registered r n
             then fst (del_model r n) = true
                  /\ get_model (snd (del_model r n)) n = GotFalse
             else get_model r n = GotFalse /\ del_model r n = (false, r)).
  { intros r [k |]; simpl; [| split; reflexivity].
    unfold dict_mem. destruct (dict_get k (models r)) eqn:E; simpl.
    - rewrite dict_get_del. split; reflexivity.
    - split; reflexivity. }
  unfold set_model in H. rewrite set_model_condition in H.
  destruct (truthy_name name && truthy s && truthy l);
    [| discriminate H].
  destruct name as [k |]; [| discriminate H].
  inversion H as [Hself]. clear H.
  assert (Hget : dict_get k (dict_set k
             (mk_entry m p s l
                (match c with Some f => f | None => fun x y => py_eq x y end))
             (models self)) = Some
             (mk_entry m p s l
                (match c with Some f => f | None => fun x y => py_eq x y end)))
    by apply dict_get_set.
  split; [| split; [| split]].
  - simpl. rewrite Hget. simpl. destruct m; reflexivity.
  - simpl. unfold dict_mem. rewrite Hget. reflexivity.
  - simpl. unfold dict_mem. rewrite Hget. simpl.
    rewrite dict_get_del. reflexivity.
  - exact Hall.
Qed.

(** C8. In an accepted registration without [compare] the stored
    predicate returns the truth value of [x == y] for all [x] and [y]; a
    [compare] that is given is stored as it is. *)
Theorem compare_defaults_to_equality (self self' : llimcobe obj)
    (name : option string)
    (m : option (model_hook obj)) (p : option (preprocess_hook obj))
    (s : option (save_hook obj)) (l : option load_hook)
    (c : option (compare_hook obj)) :
  set_model py_eq self name m p s l c = (true, self') ->
  exists k e,
    name = Some k /\ dict_get k (models self') = Some e /\
    match c with
    | Some f => compare e = f
    | None => forall x y, compare e x y = py_eq x y
    end.
Proof.
  intros H. unfold set_model in H. rewrite set_model_condition in H.
  destruct (truthy_name name && truthy s && truthy l);
    [| discriminate H].
  destruct name as [k |]; [| discriminate H].
  inversion H as [Hself]. clear H.
  eexists k, _. split; [reflexivity |].
  split; [apply dict_get_set |].
  destruct c; simpl; [reflexivity | intros x y; reflexivity].
Qed.

End Registry.

(** ** One measured image *)

Section Measurement.

Context {obj : Type}.
Variable show : obj -> option (result unit).
Variable ticks : nat -> Q.

Lemma perf_counter_ok w t w' :
  perf_counter ticks w = (Ok t, w') ->
  t = ticks (now w) /\
  w' = mk_world (tempdir w) (slot w) (S (now w)) (trace w).
Proof. unfold perf_counter. intros H. inversion H. split; reflexivity. Qed.

Lemma call_save_ok name (h : option (save_hook obj)) x w u w' :
  call_save name h x w = (Ok u, w') ->
  exists f s',
    h = Some f /\ f x (slot w) = (Ok tt, s') /\
    w' = mk_world (tempdir w) s' (now w) (trace w ++ [EvCall name HSave]).
Proof.
  unfold call_save. intros H. inv_bind H. apply emit_ok in Hm. subst w0.
  destruct h as [f |]; [| discriminate Hk]. simpl in Hk.
  destruct (f x (slot w)) as [r s'] eqn:E. inversion Hk. subst r w'.
  exists f, s'. destruct u. repeat split. exact E.
Qed.

Lemma compress_ok name (e : entry obj) image w u w' :
  compress name e image w = (Ok u, w') ->
  exists f x tr s',
    save e = Some f /\ f x (slot w) = (Ok tt, s') /\
    match model e with
    | Some m => m image = Ok x /\ tr = [EvCall name HModel]
    | None => x = image /\ tr = []
    end /\
    w' = mk_world (tempdir w) s' (now w) (trace w ++ tr ++ [EvCall name HSave]).
Proof.
  unfold compress. destruct (model e) as [m |]; intros H.
  - inv_bind H. unfold call_model in Hm. inv_bind Hm.
    apply emit_ok in Hm0. apply lift_ok in Hk0. destruct Hk0 as [Hx ->]. subst w1.
    apply call_save_ok in Hk. destruct Hk as (f & s' & Hf & Hs & ->).
    exists f, a, [EvCall name HModel], s'. simpl. rewrite <- app_assoc.
    repeat split; assumption.
  - apply call_save_ok in H. destruct H as (f & s' & Hf & Hs & ->).
    exists f, image, [], s'. repeat split; assumption.
Qed.

Lemma call_load_ok name (h : option load_hook) w a w' :
  call_load name h w = (Ok a, w') ->
  exists f s',
    h = Some f /\ f (slot w) = (Ok a, s') /\
    w' = mk_world (tempdir w) s' (now w) (trace w ++ [EvCall name HLoad]).
Proof.
  unfold call_load. intros H. inv_bind H. apply emit_ok in Hm. subst w0.
  destruct h as [f |]; [| discriminate Hk]. simpl in Hk.
  destruct (f (slot w)) as [r s'] eqn:E. inversion Hk. subst r w'.
  exists f, s'. repeat split. exact E.
Qed.

Lemma call_preprocess_ok name (h : option (preprocess_hook obj)) a w x w' :
  call_preprocess name h a w = (Ok x, w') ->
  call h a = Ok x /\
  w' = mk_world (tempdir w) (slot w) (now w) (trace w ++ [EvCall name HPreprocess]).
Proof.
  unfold call_preprocess. intros H. inv_bind H. apply emit_ok in Hm.
  apply lift_ok in Hk. destruct Hk as [Hx ->]. split; assumption.
Qed.

Lemma call_compare_ok name (h : compare_hook obj) x y w b w' :
  call_compare name h x y w = (Ok b, w') ->
  h x y = Ok b /\
  w' = mk_world (tempdir w) (slot w) (now w) (trace w ++ [EvCall name HCompare]).
Proof.
  unfold call_compare. intros H. inv_bind H. apply emit_ok in Hm.
  apply lift_ok in Hk. destruct Hk as [Hx ->]. split; assumption.
Qed.

Lemma getsize_ok w n w' :
  getsize w = (Ok n, w') ->
  exists content,
    slot w = Some content /\ n = Z.of_nat (List.length content) /\
    w' = mk_world (tempdir w) (slot w) (now w) (trace w ++ [EvGetsize n]).
Proof.
  unfold getsize. intros H. destruct (slot w) as [content |] eqn:E;
    [| discriminate H].
  unfold bind, emit, ret in H. simpl in H. rewrite E in H.
  inversion H. exists content. repeat split.
Qed.

Lemma remove_ok w u w' :
  remove w = (Ok u, w') ->
  exists content,
    slot w = Some content /\
    w' = mk_world (tempdir w) None (now w) (trace w ++ [EvRemove]).
Proof.
  unfold remove. intros H. destruct (slot w) as [content |] eqn:E;
    [| discriminate H].
  inversion H. exists content. repeat split.
Qed.

(** The display never raises into the benchmark and leaves exactly
    [display_events] on the trace. *)
Lemma show_both_swallowed image loaded w :
  try_except_pass (show_both show image loaded) w
  = (Ok tt, mk_world (tempdir w) (slot w) (now w)
              (trace w ++ display_events show image loaded)).
Proof.
  unfold try_except_pass, show_both, display_events, getattr_show, thread_join,
    excepthook_events, bind, emit, ret, raise.
  destruct w as [d s n tr]. simpl.
  destruct (show image) as [[[] | e1] |]; simpl;
    destruct (show loaded) as [[[] | e2] |]; simpl;
    repeat rewrite <- app_assoc; simpl; rewrite ?app_nil_r; reflexivity.
Qed.

Lemma fidelity_check_run image loaded same f w :
  fidelity_check show image loaded same f w
  = (Ok (f || negb same),
     mk_world (tempdir w) (slot w) (now w)
       (trace w ++ fidelity_events show image loaded same f)).
Proof.
  unfold fidelity_check, fidelity_events.
  destruct same, f; simpl;
    try (unfold ret; destruct w; simpl; rewrite app_nil_r; reflexivity).
  unfold bind at 1. unfold emit at 1.
  unfold bind. rewrite show_both_swallowed. simpl.
  rewrite <- app_assoc. reflexivity.
Qed.

(** What a completed iteration did, step by step. *)
Lemma measure_ok name (e : entry obj) image N i ms f w ms' f' w' :
  measure show ticks name e (image, N, i) (ms, f) w = (Ok (ms', f'), w') ->
  exists sf x tr_m s1 lf loaded s2 pre same content,
    save e = Some sf /\ sf x (slot w) = (Ok tt, s1) /\
    match model e with
    | Some m => m image = Ok x /\ tr_m = [EvCall name HModel]
    | None => x = image /\ tr_m = []
    end /\
    load e = Some lf /\ lf s1 = (Ok loaded, s2) /\
    call (preprocess e) loaded = Ok pre /\
    compare e image pre = Ok same /\
    s2 = Some content /\
    f' = f || negb same /\
    w' = mk_world (tempdir w) None (4 + now w)
           (trace w ++ tr_m
            ++ [EvCall name HSave; EvCall name HLoad;
                EvCall name HPreprocess; EvCall name HCompare]
            ++ fidelity_events show image pre same f
            ++ [EvGetsize (Z.of_nat (List.length content)); EvRemove]) /\
    let B := Z.of_nat (List.length content) in
    let t_enc := (ticks (1 + now w) - ticks (now w))%Q in
    let t_dec := (ticks (3 + now w) - ticks (2 + now w))%Q in
    let mb := (inject_Z (N * (itemsize loaded * 8)) / inject_Z (8 * 10 ^ 6))%Q in
    ms' = mk_metrics (bpsp ms ++ [(inject_Z (B * 8) / inject_Z N)%Q])
                     (compression_throughput ms ++ [(mb / t_enc)%Q])
                     (decompression_throughput ms ++ [(mb / t_dec)%Q]) /\
    N <> 0 /\ ~ (t_enc == 0)%Q /\ ~ (t_dec == 0)%Q.
Proof.
  unfold measure. intros H.
  step H as t0 w0 Hm. apply perf_counter_ok in Hm. destruct Hm as [-> ->].
  step H as u1 w1 Hm. apply compress_ok in Hm.
  destruct Hm as (sf & x & tr_m & s1 & Hsave & Hsf & Hmodel & ->).
  step H as t1 w2 Hm. apply perf_counter_ok in Hm. destruct Hm as [-> ->].
  step H as t2 w3 Hm. apply perf_counter_ok in Hm. destruct Hm as [-> ->].
  step H as loaded w4 Hm. apply call_load_ok in Hm.
  destruct Hm as (lf & s2 & Hload & Hlf & ->).
  step H as t3 w5 Hm. apply perf_counter_ok in Hm. destruct Hm as [-> ->].
  step H as pre w6 Hm. apply call_preprocess_ok in Hm. destruct Hm as [Hpre ->].
  step H as same w7 Hm. apply call_compare_ok in Hm. destruct Hm as [Hsame ->].
  step H as flag w8 Hm. rewrite fidelity_check_run in Hm.
  inversion Hm. subst flag w8. clear Hm.
  step H as size w9 Hm. apply getsize_ok in Hm.
  destruct Hm as (content & Hslot & -> & ->).
  step H as u2 w10 Hm. apply remove_ok in Hm. destruct Hm as (content' & _ & ->).
  step H as b w11 Hm. apply lift_ok in Hm. destruct Hm as [Hb ->].
  step H as mb1 w12 Hm. apply lift_ok in Hm. destruct Hm as [Hmb1 ->].
  step H as c w13 Hm. apply lift_ok in Hm. destruct Hm as [Hc ->].
  step H as mb2 w14 Hm. apply lift_ok in Hm. destruct Hm as [Hmb2 ->].
  step H as d w15 Hm. apply lift_ok in Hm. destruct Hm as [Hd ->].
  unfold ret in H. inversion H. subst ms' f' w'. clear H.
  simpl in *.
  apply py_truediv_ok in Hb, Hmb1, Hc, Hmb2, Hd.
  destruct Hb as [-> Hn], Hmb1 as [-> _], Hc as [-> Hc],
    Hmb2 as [-> _], Hd as [-> Hd].
  exists sf, x, tr_m, s1, lf, loaded, s2, pre, same, content.
  repeat (split; [assumption || reflexivity |]).
  split.
  { f_equal. repeat rewrite <- app_assoc. reflexivity. }
  cbv zeta. split; [reflexivity |].
  split; [| split; assumption].
  intros ->. apply Hn. reflexivity.
Qed.


(** The converse of [measure_ok]: these steps make a completed
    iteration. *)
Lemma measure_run name (e : entry obj) image N (i : Z) ms f w
    sf x tr_m s1 lf loaded s2 pre same content :
  save e = Some sf -> sf x (slot w) = (Ok tt, s1) ->
  match model e with
  | Some m => m image = Ok x /\ tr_m = [EvCall name HModel]
  | None => x = image /\ tr_m = []
  end ->
  load e = Some lf -> lf s1 = (Ok loaded, s2) ->
  call (preprocess e) loaded = Ok pre ->
  compare e image pre = Ok same ->
  s2 = Some content ->
  N <> 0 ->
  ~ (ticks (1 + now w) - ticks (now w) == 0)%Q ->
  ~ (ticks (3 + now w) - ticks (2 + now w) == 0)%Q ->
  fst (measure show ticks name e (image, N, i) (ms, f) w)
  = Ok (mk_metrics
          (bpsp ms ++ [(inject_Z (Z.of_nat (List.length content) * 8) / inject_Z N)%Q])
          (compression_throughput ms
           ++ [(inject_Z (N * (itemsize loaded * 8)) / inject_Z (8 * 10 ^ 6)
                / (ticks (1 + now w) - ticks (now w)))%Q])
          (decompression_throughput ms
           ++ [(inject_Z (N * (itemsize loaded * 8)) / inject_Z (8 * 10 ^ 6)
                / (ticks (3 + now w) - ticks (2 + now w)))%Q]),
        f || negb same).
Proof.
  intros Hsave Hsf Hmodel Hload Hlf Hpre Hsame -> HN Henc Hdec.
  assert (HqN : Qeq_bool (inject_Z N) 0 = false).
  { destruct (Qeq_bool (inject_Z N) 0) eqn:E; [| reflexivity].
    apply Qeq_bool_iff in E. exfalso. apply HN.
    unfold Qeq in E. simpl in E. lia. }
  assert (Hqe : Qeq_bool (ticks (1 + now w) - ticks (now w)) 0 = false).
  { destruct (Qeq_bool (ticks (1 + now w) - ticks (now w)) 0) eqn:E;
      [| reflexivity].
    apply Qeq_bool_iff in E. contradiction. }
  assert (Hqd : Qeq_bool (ticks (3 + now w) - ticks (2 + now w)) 0 = false).
  { destruct (Qeq_bool (ticks (3 + now w) - ticks (2 + now w)) 0) eqn:E;
      [| reflexivity].
    apply Qeq_bool_iff in E. contradiction. }
  unfold measure, bind, perf_counter. simpl.
  assert (Hc : compress name e image
                 (mk_world (tempdir w) (slot w) (S (now w)) (trace w))
               = (Ok tt, mk_world (tempdir w) s1 (S (now w))
                           (trace w ++ tr_m ++ [EvCall name HSave]))).
  { unfold compress, call_model, call_save, bind, emit, lift. rewrite Hsave.
    destruct (model e) as [m |]; destruct Hmodel as [Hx ->]; simpl.
    - rewrite Hx. simpl. rewrite Hsf. unfold set_slot. simpl.
      rewrite <- app_assoc. reflexivity.
    - subst x. rewrite Hsf. reflexivity. }
  rewrite Hc. simpl.
  unfold call_load, bind, emit. rewrite Hload. simpl. rewrite Hlf. simpl.
  unfold call_preprocess, bind, emit, lift. simpl. rewrite Hpre.
  unfold call_compare, bind, emit, lift. simpl. rewrite Hsame.
  rewrite fidelity_check_run. simpl.
  unfold getsize, remove, bind, emit, ret, lift. simpl.
  unfold py_truediv. rewrite HqN.
  cbn [Nat.add] in Hqe, Hqd. rewrite Hqe, Hqd. simpl.
  reflexivity.
Qed.

(** *** What the trace of an iteration contains *)

Lemma getsizes_app tr1 tr2 : getsizes (tr1 ++ tr2) = getsizes tr1 ++ getsizes tr2.
Proof.
  induction tr1 as [| ev tr1 IH]; simpl; [reflexivity |].
  destruct ev; simpl; rewrite IH; reflexivity.
Qed.

Lemma warnings_app tr1 tr2 : warnings (tr1 ++ tr2) = (warnings tr1 + warnings tr2)%nat.
Proof.
  induction tr1 as [| ev tr1 IH]; simpl; [reflexivity |].
  destruct ev; simpl; rewrite IH; reflexivity.
Qed.

Lemma diagnostics_app tr1 tr2 :
  diagnostics (tr1 ++ tr2) = diagnostics tr1 ++ diagnostics tr2.
Proof. apply filter_app. Qed.

Lemma display_events_quiet image loaded :
  getsizes (display_events show image loaded) = [] /\
  warnings (display_events show image loaded) = O /\
  diagnostics (display_events show image loaded)
  = display_events show image loaded.
Proof.
  unfold display_events, excepthook_events.
  destruct (show image) as [[[] | e1] |]; simpl;
    destruct (show loaded) as [[[] | e2] |]; simpl; repeat split.
Qed.

Lemma fidelity_events_quiet image loaded same f :
  getsizes (fidelity_events show image loaded same f) = [] /\
  warnings (fidelity_events show image loaded same f)
  = (if negb same && negb f then 1 else 0)%nat /\
  diagnostics (fidelity_events show image loaded same f)
  = fidelity_events show image loaded same f.
Proof.
  unfold fidelity_events.
  destruct (display_events_quiet image loaded) as (Hg & Hw & Hd).
  destruct (negb same && negb f); [| repeat split].
  cbn [getsizes warnings]. unfold diagnostics in *. cbn [filter is_diagnostic].
  rewrite Hg, Hw, Hd. repeat split.
Qed.

(** C2. A measured image records as compression throughput the
    megabytes of the image, its element count [N] times [pixel_bits] over
    [8 * 10^6], divided by the time between the two clock readings around
    the compression, and as decompression throughput the same megabytes
    divided by the time between the two readings around [load];
    [pixel_bits] is 8 times the item size of the array that [load]
    returned, not of what [preprocess] makes of it. *)
Theorem throughput_from_raw_array name (e : entry obj) image N i ms f w ms' f' w' :
  measure show ticks name e (image, N, i) (ms, f) w = (Ok (ms', f'), w') ->
  exists lf s1 s2 loaded c d,
    load e = Some lf /\ lf s1 = (Ok loaded, s2) /\
    compression_throughput ms' = compression_throughput ms ++ [c] /\
    decompression_throughput ms' = decompression_throughput ms ++ [d] /\
    let pixel_bits := 8 * itemsize loaded in
    let t_enc := (ticks (1 + now w) - ticks (now w))%Q in
    let t_dec := (ticks (3 + now w) - ticks (2 + now w))%Q in
    (c == (inject_Z N * inject_Z pixel_bits / inject_Z (8 * 10 ^ 6)) / t_enc)%Q /\
    (d == (inject_Z N * inject_Z pixel_bits / inject_Z (8 * 10 ^ 6)) / t_dec)%Q.
Proof.
  intros H. apply measure_ok in H.
  destruct H as (sf & x & tr_m & s1 & lf & loaded & s2 & pre & same & content
                 & _ & _ & _ & Hload & Hlf & _ & _ & _ & _ & _ & Hms & _).
  cbv zeta in Hms. subst ms'. simpl.
  eexists lf, s1, s2, loaded, _, _.
  split; [exact Hload |]. split; [exact Hlf |].
  split; [reflexivity |]. split; [reflexivity |].
  cbv zeta.
  replace (itemsize loaded * 8) with (8 * itemsize loaded) by lia.
  rewrite inject_Z_mult. split; reflexivity.
Qed.

End Measurement.

(** ** The display of a mismatch *)

(** What an iteration returns does not depend on the display. *)
Lemma measure_ignores_display {obj} (show show' : obj -> option (result unit))
    (ticks : nat -> Q) name (e : entry obj) item st w :
  fst (measure show ticks name e item st w)
  = fst (measure show' ticks name e item st w).
Proof.
  destruct item as [[image N] i], st as [ms f].
  unfold measure, bind, perf_counter. simpl.
  match goal with
  | |- context [compress ?n ?a ?b ?c] =>
      destruct (compress n a b c) as [[u | err] w1]; [| reflexivity]
  end.
  simpl.
  match goal with
  | |- context [call_load ?n ?a ?b] =>
      destruct (call_load n a b) as [[loaded | err] w2]; [| reflexivity]
  end.
  simpl.
  destruct (call (preprocess e) loaded) as [pre | err]; [| reflexivity].
  destruct (compare e image pre) as [same | err]; [| reflexivity].
  rewrite (fidelity_check_run show), (fidelity_check_run show').
  unfold getsize, remove, bind, emit, ret, lift. simpl.
  destruct (slot w2) as [content |]; [| reflexivity]. simpl.
  repeat match goal with
         | |- context [py_truediv ?a ?b] =>
             destruct (py_truediv a b); [| reflexivity]
         end.
  reflexivity.
Qed.

(** C9, as the code has it. When a mismatch triggers the diagnostic, the
    check returns with the flag set whatever the display does, and what
    the iteration returns (its metrics or its exception) is the same with
    any display.  Both display operations are started and then joined
    when both objects have a [show] attribute, also when a display
    operation fails in its thread; when the first object has none, nothing
    is started, and when only the second has none, the first thread is
    started and not joined. *)
Theorem display_failure_swallowed {obj} (show show' : obj -> option (result unit))
    (ticks : nat -> Q) name (e : entry obj) item st image loaded w :
  fidelity_check show image loaded false false w
  = (Ok true,
     mk_world (tempdir w) (slot w) (now w)
       (trace w ++ EvWarn mismatch_warning :: display_events show image loaded))
  /\ display_events show image loaded
     = match show image, show loaded with
       | Some r1, Some r2 =>
           [EvThreadStart 1; EvThreadStart 2]
           ++ excepthook_events 1 r1 ++ [EvThreadJoin 1]
           ++ excepthook_events 2 r2 ++ [EvThreadJoin 2]
       | Some _, None => [EvThreadStart 1]
       | None, _ => []
       end
  /\ fst (measure show ticks name e item st w)
     = fst (measure show' ticks name e item st w).
Proof.
  split; [| split].
  - rewrite fidelity_check_run. reflexivity.
  - unfold display_events.
    destruct (show image) as [r1 |]; [| reflexivity].
    destruct (show loaded) as [r2 |]; reflexivity.
  - apply measure_ignores_display.
Qed.

(** ** The loops of [benchmark] *)

Lemma zip3_length {A B C} (a : list A) (b : list B) (c : list C) :
  List.length (zip3 a b c)
  = Nat.min (List.length a) (Nat.min (List.length b) (List.length c)).
Proof.
  revert b c. induction a as [| x a IH]; intros [| y b] [| z c]; simpl;
    try reflexivity.
  rewrite IH. reflexivity.
Qed.

Lemma zip3_nil_r {A B C} (a : list A) (b : list B) :
  zip3 a b (@nil C) = [].
Proof. destruct a, b; reflexivity. Qed.

Lemma py_range_length n : List.length (py_range n) = Z.to_nat n.
Proof. unfold py_range. rewrite length_map, length_seq. reflexivity. Qed.

Lemma py_range_empty n : n <= 0 -> py_range n = [].
Proof.
  intros H. unfold py_range. replace (Z.to_nat n) with O by lia. reflexivity.
Qed.

Section Run.

Context {obj : Type}.
Variable show : obj -> option (result unit).
Variable ticks : nat -> Q.

Lemma map_preprocess_ok name (h : option (preprocess_hook obj)) ds w xs w' :
  map_M (call_preprocess name h) ds w = (Ok xs, w') ->
  Forall2 (fun a x => call h a = Ok x) ds xs /\
  w' = mk_world (tempdir w) (slot w) (now w)
         (trace w ++ repeat (EvCall name HPreprocess) (List.length ds)).
Proof.
  revert w xs w'. induction ds as [| a ds IH]; intros w xs w' H; simpl in H.
  - unfold ret in H. inversion H. subst. split; [constructor |].
    simpl. rewrite app_nil_r. destruct w'. reflexivity.
  - step H as x w1 Hm. apply call_preprocess_ok in Hm. destruct Hm as [Hx ->].
    step H as ys w2 Hm. apply IH in Hm. destruct Hm as [Hys ->].
    unfold ret in H. inversion H. subst. split; [constructor; assumption |].
    simpl. rewrite <- app_assoc. reflexivity.
Qed.

Lemma map_preprocess_raises name (h : option (preprocess_hook obj)) ds a err :
  In a ds -> call h a = Raise err ->
  forall w, exists err' w',
    map_M (call_preprocess name h) ds w = (Raise err', w').
Proof.
  intros Hin Ha. induction ds as [| a0 ds IH]; [destruct Hin |].
  intros w. simpl. destruct Hin as [-> | Hin].
  - eexists err, _. apply bind_raise.
    unfold call_preprocess, bind, emit, lift. simpl. rewrite Ha. reflexivity.
  - unfold bind at 1.
    destruct (call_preprocess name h a0 w) as [[x | e] w1].
    + destruct (IH Hin w1) as (err' & w' & Hr).
      exists err', w'. apply bind_raise. exact Hr.
    + exists e, w1. reflexivity.
Qed.

(** What a completed pass over one model did. *)
Lemma benchmark_model_ok (self : llimcobe obj) n name e al f w al' f' w' :
  benchmark_model show ticks self n (name, e) (al, f) w = (Ok (al', f'), w') ->
  exists xs ms,
    Forall2 (fun a x => call (preprocess e) a = Ok x) (dataset self) xs /\
    for_each (zip3 xs (lens self) (py_range n)) (measure show ticks name e)
      (no_metrics, f)
      (mk_world (tempdir w) (slot w) (now w)
         (trace w ++ repeat (EvCall name HPreprocess) (List.length (dataset self))))
    = (Ok (ms, f'), w') /\
    al' = mk_all (dict_set name (bpsp ms) (all_bpsp al))
                 (dict_set name (compression_throughput ms) (all_throughput al))
                 (dict_set name (decompression_throughput ms) (all_dthroughput al)).
Proof.
  unfold benchmark_model. intros H.
  step H as xs w1 Hm. apply map_preprocess_ok in Hm. destruct Hm as [Hxs ->].
  step H as r w2 Hm. destruct r as [ms f2].
  unfold ret in H. inversion H. subst.
  exists xs, ms. repeat split; assumption.
Qed.

(** What a completed iteration leaves, in the terms the loops need. *)
Lemma measure_summary name (e : entry obj) image N i ms f w ms' f' w' :
  measure show ticks name e (image, N, i) (ms, f) w = (Ok (ms', f'), w') ->
  exists B tr b,
    trace w' = trace w ++ tr /\ getsizes tr = [B] /\
    warnings tr = (if negb f && f' then 1 else 0)%nat /\
    (f = true -> f' = true) /\
    slot w' = None /\
    bpsp ms' = bpsp ms ++ [b] /\
    (b == inject_Z 8 * inject_Z B / inject_Z N)%Q /\ N <> 0.
Proof.
  intros H. apply measure_ok in H.
  destruct H as (sf & x & tr_m & s1 & lf & loaded & s2 & pre & same & content
                 & _ & _ & Hmodel & _ & _ & _ & _ & _ & Hf & Hw & Hms & HN & _).
  cbv zeta in Hms. subst ms' w' f'.
  destruct (fidelity_events_quiet show image pre same f) as (Hg & Hwarn & _).
  assert (Htr : getsizes tr_m = [] /\ warnings tr_m = O).
  { destruct (model e); destruct Hmodel as [_ ->]; split; reflexivity. }
  destruct Htr as [Hg0 Hw0].
  eexists _, _, _. split; [reflexivity |].
  split.
  { rewrite getsizes_app, Hg0. simpl. rewrite getsizes_app, Hg. reflexivity. }
  split.
  { rewrite warnings_app, Hw0. simpl. rewrite warnings_app, Hwarn. simpl.
    destruct f, same; reflexivity. }
  split; [intros ->; reflexivity |].
  split; [reflexivity |].
  split; [reflexivity |].
  split; [| exact HN].
  replace (Z.of_nat (List.length content) * 8)
    with (8 * Z.of_nat (List.length content)) by lia.
  rewrite inject_Z_mult. reflexivity.
Qed.

(** The inner loop: one size read and one bpsp per item, paired in
    order with the lengths that were zipped in. *)
Lemma measure_loop name (e : entry obj) xs :
  forall ls rs ms f w ms' f' w',
    for_each (zip3 xs ls rs) (measure show ticks name e) (ms, f) w
    = (Ok (ms', f'), w') ->
    exists bs tr,
      bpsp ms' = bpsp ms ++ bs /\ trace w' = trace w ++ tr /\
      Forall2 (fun b BN =>
                 (b == inject_Z 8 * inject_Z (fst BN) / inject_Z (snd BN))%Q
                 /\ snd BN <> 0)
              bs (combine (getsizes tr) ls) /\
      warnings tr = (if negb f && f' then 1 else 0)%nat /\
      (f = true -> f' = true) /\
      (slot w = None -> slot w' = None) /\
      List.length bs = List.length (zip3 xs ls rs).
Proof.
  induction xs as [| x xs IH]; intros ls rs ms f w ms' f' w' H.
  - simpl in H. unfold ret in H. inversion H. subst.
    exists [], []. rewrite !app_nil_r. simpl.
    repeat split; try constructor; try tauto.
    destruct f'; reflexivity.
  - destruct ls as [| N ls]; [| destruct rs as [| i rs]].
    + simpl in H. unfold ret in H. inversion H. subst.
      exists [], []. rewrite !app_nil_r. simpl.
      repeat split; try constructor; try tauto.
      destruct f'; reflexivity.
    + simpl in H. unfold ret in H. inversion H. subst.
      exists [], []. rewrite !app_nil_r. simpl.
      repeat split; try constructor; try tauto.
      destruct f'; reflexivity.
    + cbn [zip3 for_each] in H. step H as st1 w1 Hm. destruct st1 as [ms1 f1].
      apply measure_summary in Hm.
      destruct Hm as (B & tr1 & b & Htr1 & Hg1 & Hw1 & Hf1 & Hs1 & Hb1 & Hb & HN).
      apply IH in H.
      destruct H as (bs & tr & Hbs & Htr & Hall & Hw & Hf & Hs & Hlen).
      exists (b :: bs), (tr1 ++ tr).
      split; [rewrite Hbs, Hb1, <- app_assoc; reflexivity |].
      split; [rewrite Htr, Htr1, <- app_assoc; reflexivity |].
      split.
      { rewrite getsizes_app, Hg1. simpl. constructor; [| exact Hall].
        simpl. split; assumption. }
      split.
      { rewrite warnings_app, Hw1, Hw.
        destruct f, f1, f'; simpl; try reflexivity;
          try (specialize (Hf1 eq_refl); discriminate Hf1);
          try (specialize (Hf eq_refl); discriminate Hf). }
      split; [intros Ht; apply Hf, Hf1, Ht |].
      split; [intros _; apply Hs, Hs1 |].
      simpl. rewrite Hlen. reflexivity.
Qed.

(** One completed iteration, seen from the slot: the size that is read is
    the length of the file the hooks left there, and the recorded value
    is that size in bits over the element count. *)
Lemma measure_artifact name (e : entry obj) image N i ms f w ms' f' w' :
  measure show ticks name e (image, N, i) (ms, f) w = (Ok (ms', f'), w') ->
  exists content b tr,
    artifact_of e (slot w) image content /\
    bpsp ms' = bpsp ms ++ [b] /\
    (b == 8 * inject_Z (Z.of_nat (List.length content)) / inject_Z N)%Q /\
    N <> 0 /\
    trace w' = trace w ++ tr /\
    getsizes tr = [Z.of_nat (List.length content)] /\
    slot w' = None.
Proof.
  intros H. apply measure_ok in H.
  destruct H as (sf & x & tr_m & s1 & lf & loaded & s2 & pre & same & content
                 & Hsave & Hsf & Hmodel & Hload & Hlf & _ & _ & Hs2 & _
                 & Hw & Hms & HN & _).
  cbv zeta in Hms. subst ms' w' s2.
  destruct (fidelity_events_quiet show image pre same f) as (Hg & _).
  exists content, (inject_Z (Z.of_nat (List.length content) * 8) / inject_Z N)%Q.
  eexists. split.
  { exists sf, lf, x, (slot w), s1, loaded.
    repeat split; try assumption; [| left; reflexivity].
    destruct (model e); [destruct Hmodel as [Hx _] | destruct Hmodel as [Hx _]];
      exact Hx. }
  split; [reflexivity |].
  split.
  { replace (Z.of_nat (List.length content) * 8)
      with (8 * Z.of_nat (List.length content)) by lia.
    rewrite inject_Z_mult. reflexivity. }
  split; [exact HN |].
  split; [reflexivity |].
  split; [| reflexivity].
  assert (Hg0 : getsizes tr_m = []).
  { destruct (model e); destruct Hmodel as [_ ->]; reflexivity. }
  rewrite getsizes_app, Hg0. simpl. rewrite getsizes_app, Hg. reflexivity.
Qed.

(** The inner loop, seen from the slot: one file per item of the zip, in
    order; the sizes read are the lengths of these files. *)
Lemma measure_loop_artifacts name (e : entry obj) xs :
  forall ls rs ms f w ms' f' w',
    for_each (zip3 xs ls rs) (measure show ticks name e) (ms, f) w
    = (Ok (ms', f'), w') ->
    exists bs tr contents,
      bpsp ms' = bpsp ms ++ bs /\ trace w' = trace w ++ tr /\
      getsizes tr = map (fun c => Z.of_nat (List.length c)) contents /\
      List.length contents = List.length bs /\
      List.length bs = List.length (zip3 xs ls rs) /\
      Forall2 (fun b (ci : list byte * (obj * Z * Z)) =>
                 let '(content, (image, N, _)) := ci in
                 artifact_of e (slot w) image content /\
                 (b == 8 * inject_Z (Z.of_nat (List.length content))
                         / inject_Z N)%Q /\
                 N <> 0)
              bs (combine contents (zip3 xs ls rs)).
Proof.
  induction xs as [| x xs IH]; intros ls rs ms f w ms' f' w' H.
  - simpl in H. unfold ret in H. inversion H. subst.
    exists [], [], []. rewrite !app_nil_r. simpl.
    repeat split; constructor.
  - destruct ls as [| N ls]; [| destruct rs as [| i rs]].
    + simpl in H. unfold ret in H. inversion H. subst.
      exists [], [], []. rewrite !app_nil_r. simpl.
      repeat split; constructor.
    + simpl in H. unfold ret in H. inversion H. subst.
      exists [], [], []. rewrite !app_nil_r. simpl.
      repeat split; constructor.
    + cbn [zip3 for_each] in H. step H as st1 w1 Hm. destruct st1 as [ms1 f1].
      apply measure_artifact in Hm.
      destruct Hm as (content & b & tr1 & Hart & Hb1 & Hb & HN & Htr1 & Hg1 & Hs1).
      apply IH in H.
      destruct H as (bs & tr & contents & Hbs & Htr & Hg & Hclen & Hlen & Hall).
      exists (b :: bs), (tr1 ++ tr), (content :: contents).
      split; [rewrite Hbs, Hb1, <- app_assoc; reflexivity |].
      split; [rewrite Htr, Htr1, <- app_assoc; reflexivity |].
      split; [rewrite getsizes_app, Hg1, Hg; reflexivity |].
      split; [cbn [List.length]; rewrite Hclen; reflexivity |].
      split; [cbn [List.length]; rewrite Hlen; reflexivity |].
      cbn [combine]. constructor.
      * repeat split; assumption.
      * eapply Forall2_impl; [| exact Hall].
        intros b' [c' [[image' N'] i']] (Hart' & Hb' & HN').
        repeat split; try assumption.
        destruct Hart' as (sf & lf & x' & s0 & s1 & loaded & Hsave & Hload
                           & Hmodel & Hs0 & Hsf & Hlf).
        exists sf, lf, x', s0, s1, loaded.
        repeat split; try assumption.
        right. destruct Hs0 as [-> | ->]; [exact Hs1 | reflexivity].
Qed.

(** From the zip over the preprocessed dataset back to the dataset. *)
Lemma artifacts_of_dataset (e : entry obj) start ds xs :
  Forall2 (fun a x => call (preprocess e) a = Ok x) ds xs ->
  forall bs contents rs,
    List.length contents = List.length bs ->
    Forall2 (fun b (ci : list byte * (obj * Z * Z)) =>
               let '(content, (image, N, _)) := ci in
               artifact_of e start image content /\
               (b == 8 * inject_Z (Z.of_nat (List.length content))
                       / inject_Z N)%Q /\
               N <> 0)
            bs (combine contents (zip3 xs (map np_size ds) rs)) ->
    Forall2 (fun b (ca : list byte * ndarray) =>
               let '(content, a) := ca in
               exists image,
                 call (preprocess e) a = Ok image /\
                 artifact_of e start image content /\
                 (b == 8 * inject_Z (Z.of_nat (List.length content))
                         / inject_Z (np_size a))%Q /\
                 np_size a <> 0)
            bs (combine contents ds).
Proof.
  induction 1 as [| a x ds xs Hax Hrest IH]; intros bs contents rs Hlen Hall.
  - cbn [zip3] in Hall. rewrite combine_nil in Hall. inversion Hall. subst.
    destruct contents; [constructor | discriminate Hlen].
  - destruct contents as [| c contents].
    + destruct bs; [constructor | discriminate Hlen].
    + destruct rs as [| i rs].
      * cbn [map zip3 combine] in Hall. inversion Hall. subst.
        discriminate Hlen.
      * cbn [map zip3 combine] in Hall. inversion Hall as [| b ? bs' ? Hb Hbs].
        subst. cbn [combine]. constructor.
        -- exists x. destruct Hb as (Hart & Hq & HN). repeat split; assumption.
        -- eapply IH; [| exact Hbs]. cbn [List.length] in Hlen. lia.
Qed.

(** C1. A completed pass over a model records one bpsp value for each
    measured image: as many as the smaller of [num_images] and the size of
    the dataset.  The values stored under the model's name are paired, in
    order, with the files [content] that the scratch slot held when
    [os.path.getsize] was evaluated - what the [load] hook left of what the
    [save] hook wrote for that image - and with the images of the dataset.
    With [B] the number of bytes of [content] and [N = np.size] of the
    image, as computed by the constructor, the recorded value is
    [8 * B / N]; it is 4 when the file holds [N / 2] bytes.  The sizes
    [os.path.getsize] reported in the trace are these [B], in order. *)
Theorem bpsp_is_bits_per_element (self : llimcobe obj) n name e al f w al' f' w' :
  lens self = map np_size (dataset self) ->
  benchmark_model show ticks self n (name, e) (al, f) w = (Ok (al', f'), w') ->
  exists bs tr contents,
    dict_get name (all_bpsp al') = Some bs /\
    List.length bs = Nat.min (Z.to_nat n) (List.length (dataset self)) /\
    List.length contents = List.length bs /\
    Forall2 (fun b (ca : list byte * ndarray) =>
               let '(content, a) := ca in
               let B := Z.of_nat (List.length content) in
               let N := np_size a in
               (exists image,
                  call (preprocess e) a = Ok image /\
                  artifact_of e (slot w) image content) /\
               (b == 8 * inject_Z B / inject_Z N)%Q /\
               (2 * B = N -> (b == 4)%Q))
            bs (combine contents (dataset self)) /\
    trace w' = trace w ++ tr /\
    getsizes tr = map (fun c => Z.of_nat (List.length c)) contents /\
    Forall2 (fun b BN =>
               let '(B, N) := BN in
               (b == 8 * inject_Z B / inject_Z N)%Q /\
               (2 * B = N -> (b == 4)%Q))
            bs (combine (getsizes tr) (map np_size (dataset self))).
Proof.
  intros Hlens H. apply benchmark_model_ok in H.
  destruct H as (xs & ms & Hxs & Hloop & ->).
  assert (Hfour : forall (b : Q) B N,
             (b == 8 * inject_Z B / inject_Z N)%Q -> N <> 0 -> 2 * B = N ->
             (b == 4)%Q).
  { intros b B N Hb HN H2. rewrite Hb. subst N.
    assert (HB : ~ (inject_Z B == 0)%Q).
    { intros Hz. apply HN. unfold Qeq in Hz. simpl in Hz. lia. }
    rewrite inject_Z_mult. change (inject_Z 2) with 2%Q. field. exact HB. }
  pose proof Hloop as Hold. apply measure_loop in Hold.
  apply measure_loop_artifacts in Hloop.
  destruct Hloop as (bs & tr & contents & Hbs & Htr & Hg & Hclen & Hlen & Hall).
  destruct Hold as (bs0 & tr0 & Hbs0 & Htr0 & Hall0 & _).
  rewrite Hbs in Hbs0. apply app_inv_head in Hbs0. subst bs0.
  rewrite Htr in Htr0. apply app_inv_head in Htr0. subst tr0.
  cbn [slot trace] in Hall, Htr. simpl in Hbs. subst bs.
  assert (Hquiet : forall k, getsizes (repeat (EvCall name HPreprocess) k) = []).
  { induction k as [| k IHk]; [reflexivity | exact IHk]. }
  exists (bpsp ms),
    (repeat (EvCall name HPreprocess) (List.length (dataset self)) ++ tr),
    contents.
  split; [simpl; apply dict_get_set |].
  split.
  { rewrite Hlen, zip3_length, py_range_length, Hlens, length_map.
    rewrite <- (Forall2_length Hxs). lia. }
  split; [exact Hclen |].
  split.
  { rewrite Hlens in Hall.
    eapply Forall2_impl;
      [| eapply artifacts_of_dataset; [exact Hxs | exact Hclen | exact Hall]].
    intros b [content a] (image & Hpre & Hart & Hb & HN). cbv zeta.
    split; [exists image; split; assumption |].
    split; [exact Hb |].
    intros H2. exact (Hfour _ _ _ Hb HN H2). }
  split; [rewrite Htr, <- app_assoc; reflexivity |].
  split; [rewrite getsizes_app, Hquiet; exact Hg |].
  rewrite getsizes_app, Hquiet. cbn [app]. rewrite <- Hlens.
  eapply Forall2_impl; [| exact Hall0].
  intros b [B N]. cbn [fst snd]. intros [Hb HN]. split; [exact Hb |].
  intros H2. exact (Hfour _ _ _ Hb HN H2).
Qed.

Lemma repeat_call_quiet name h k :
  getsizes (repeat (EvCall name h) k) = [] /\
  warnings (repeat (EvCall name h) k) = O.
Proof. induction k as [| k IH]; [split; reflexivity | exact IH]. Qed.

(** What a completed pass over one model leaves on the trace and in the
    slot. *)
Lemma benchmark_model_summary (self : llimcobe obj) n item al f w al' f' w' :
  benchmark_model show ticks self n item (al, f) w = (Ok (al', f'), w') ->
  exists tr,
    trace w' = trace w ++ tr /\
    warnings tr = (if negb f && f' then 1 else 0)%nat /\
    (f = true -> f' = true) /\
    (slot w = None -> slot w' = None).
Proof.
  destruct item as [name e]. intros H. apply benchmark_model_ok in H.
  destruct H as (xs & ms & _ & Hloop & _).
  apply measure_loop in Hloop.
  destruct Hloop as (bs & tr & _ & Htr & _ & Hw & Hf & Hs & _).
  simpl in Htr, Hs.
  exists (repeat (EvCall name HPreprocess) (List.length (dataset self)) ++ tr).
  split; [rewrite Htr, <- app_assoc; reflexivity |].
  split; [| split; assumption].
  rewrite warnings_app, (proj2 (repeat_call_quiet name HPreprocess _)).
  exact Hw.
Qed.

(** C5. A completed iteration leaves the flag at [flag or mismatch]: it
    is set by a mismatch and never reset; the warning and the display
    happen exactly when there is a mismatch and the flag was not set, and
    nothing of the diagnostic happens otherwise; and it records the
    metrics that the same iteration records with a predicate that finds
    the images equal.  A completed measurement starts from the flag unset
    and emits one warning when it ends with the flag set and none
    otherwise. *)
Theorem lossy_flag_set_once :
  (forall name (e : entry obj) image N i ms f w ms' f' w',
     measure show ticks name e (image, N, i) (ms, f) w = (Ok (ms', f'), w') ->
     exists pre same tr,
       compare e image pre = Ok same /\
       f' = f || negb same /\
       trace w' = trace w ++ tr /\
       warnings tr = (if negb same && negb f then 1 else 0)%nat /\
       diagnostics tr
       = (if negb same && negb f
          then EvWarn mismatch_warning :: display_events show image pre
          else []) /\
       fst (measure show ticks name (matching e) (image, N, i) (ms, f) w)
       = Ok (ms', f))
  /\ (forall (self : llimcobe obj) n w al f w',
        benchmark_measure show ticks self n w = (Ok (al, f), w') ->
        exists tr,
          trace w' = trace w ++ tr /\
          warnings tr = (if f then 1 else 0)%nat).
Proof.
  split.
  - intros name e image N i ms f w ms' f' w' H.
    apply measure_ok in H.
    destruct H as (sf & x & tr_m & s1 & lf & loaded & s2 & pre & same & content
                   & Hsave & Hsf & Hmodel & Hload & Hlf & Hpre & Hsame & Hs2
                   & Hf & Hw & Hms & HN & Henc & Hdec).
    cbv zeta in Hms, Henc, Hdec.
    exists pre, same. eexists. split; [exact Hsame |]. split; [exact Hf |].
    split; [rewrite Hw; reflexivity |].
    split; [| split].
    + destruct (fidelity_events_quiet show image pre same f) as (_ & Hwarn & _).
      assert (Hw0 : warnings tr_m = O).
      { destruct (model e); destruct Hmodel as [_ ->]; reflexivity. }
      rewrite warnings_app, Hw0. simpl. rewrite warnings_app, Hwarn. simpl.
      destruct same, f; reflexivity.
    + destruct (fidelity_events_quiet show image pre same f) as (_ & _ & Hdiag).
      assert (Hd0 : diagnostics tr_m = []).
      { destruct (model e); destruct Hmodel as [_ ->]; reflexivity. }
      rewrite diagnostics_app, Hd0.
      change (diagnostics
                ([EvCall name HSave; EvCall name HLoad; EvCall name HPreprocess;
                  EvCall name HCompare]
                 ++ fidelity_events show image pre same f
                 ++ [EvGetsize (Z.of_nat (List.length content)); EvRemove]))
        with (diagnostics (fidelity_events show image pre same f
                           ++ [EvGetsize (Z.of_nat (List.length content));
                               EvRemove])).
      rewrite diagnostics_app, Hdiag. cbn [app]. rewrite app_nil_r.
      reflexivity.
    + rewrite (@measure_run obj show ticks name (matching e) image N i ms f w
                 sf x tr_m s1 lf loaded s2 pre true content
                 Hsave Hsf Hmodel Hload Hlf Hpre eq_refl Hs2 HN Henc Hdec).
      rewrite Hms. simpl. rewrite orb_false_r. reflexivity.
  - intros self n w al f w' H. unfold benchmark_measure in H.
    apply (for_each_invariant
             (benchmark_model show ticks self n)
             (fun st w1 => exists tr,
                  trace w1 = trace w ++ tr /\
                  warnings tr = (if snd st then 1 else 0)%nat)) in H.
    + exact H.
    + intros item [al1 f1] w1 [al2 f2] w2 _ (tr1 & Htr1 & Hw1) Hstep.
      apply benchmark_model_summary in Hstep.
      destruct Hstep as (tr2 & Htr2 & Hw2 & Hf2 & _).
      exists (tr1 ++ tr2). simpl in *.
      split; [rewrite Htr2, Htr1, <- app_assoc; reflexivity |].
      rewrite warnings_app, Hw1, Hw2.
      destruct f1, f2; simpl; try reflexivity.
      specialize (Hf2 eq_refl). discriminate Hf2.
    + exists []. rewrite app_nil_r. split; reflexivity.
Qed.

(** C6. The slot holds the content of one file or nothing: there is
    never more than one artifact.  The constructor leaves it empty.  A
    completed iteration calls [save], later reads the size of the
    artifact that is in the slot and removes it, and leaves the slot
    empty; so in a completed inner loop begun with an empty slot every
    iteration begins with the slot empty, and a completed measurement
    begun with an empty slot ends with it empty. *)
Theorem scratch_slot_single_use :
  (forall ds w, slot (snd (init obj ds w)) = None)
  /\ (forall name (e : entry obj) item st w st' w',
        measure show ticks name e item st w = (Ok st', w') ->
        slot w' = None /\
        exists tr1 tr2 (content : list byte),
          trace w' = trace w ++ tr1 ++ [EvCall name HSave] ++ tr2
                     ++ [EvGetsize (Z.of_nat (List.length content)); EvRemove])
  /\ (forall name (e : entry obj) items1 item items2 st w st' w',
        slot w = None ->
        for_each (items1 ++ item :: items2) (measure show ticks name e) st w
        = (Ok st', w') ->
        exists st1 w1 st2 w2,
          for_each items1 (measure show ticks name e) st w = (Ok st1, w1) /\
          slot w1 = None /\
          measure show ticks name e item st1 w1 = (Ok st2, w2) /\
          slot w2 = None)
  /\ (forall (self : llimcobe obj) n w r w',
        slot w = None ->
        benchmark_measure show ticks self n w = (Ok r, w') ->
        slot w' = None).
Proof.
  assert (Hiter : forall name (e : entry obj) item st w st' w',
             measure show ticks name e item st w = (Ok st', w') ->
             slot w' = None /\
             exists tr1 tr2 (content : list byte),
               trace w' = trace w ++ tr1 ++ [EvCall name HSave] ++ tr2
                          ++ [EvGetsize (Z.of_nat (List.length content)); EvRemove]).
  { intros name e [[image N] i] [ms f] w [ms' f'] w' H.
    apply measure_ok in H.
    destruct H as (sf & x & tr_m & s1 & lf & loaded & s2 & pre & same & content
                   & _ & _ & _ & _ & _ & _ & _ & _ & _ & Hw & _).
    subst w'. split; [reflexivity |].
    exists tr_m, ([EvCall name HLoad; EvCall name HPreprocess; EvCall name HCompare]
                  ++ fidelity_events show image pre same f), content.
    simpl. rewrite <- ?app_assoc. reflexivity. }
  split; [| split; [exact Hiter | split]].
  - intros ds [d s k tr]. destruct d, s; reflexivity.
  - intros name e items1 item items2 st w st' w' Hs H.
    rewrite for_each_app in H. step H as st1 w1 Hm.
    cbn [for_each] in H. step H as st2 w2 Hm2.
    assert (Hs1 : slot w1 = None).
    { apply (for_each_invariant (measure show ticks name e)
               (fun _ v => slot v = None)) in Hm.
      - exact Hm.
      - intros y s v s' v' _ _ Hy. apply (Hiter _ _ _ _ _ _ _ Hy).
      - exact Hs. }
    exists st1, w1, st2, w2.
    repeat split; try assumption. apply (Hiter _ _ _ _ _ _ _ Hm2).
  - intros self n w r w' Hs H. unfold benchmark_measure in H.
    apply (for_each_invariant (benchmark_model show ticks self n)
             (fun _ v => slot v = None)) in H.
    + exact H.
    + intros item [al1 f1] w1 [al2 f2] w2 _ Hs1 Hstep.
      apply benchmark_model_summary in Hstep.
      destruct Hstep as (tr2 & _ & _ & _ & Hs2). apply Hs2, Hs1.
    + exact Hs.
Qed.

(** With nothing to measure a pass stores three empty lists. *)
Lemma benchmark_model_empty (self : llimcobe obj) n name e al f w al' f' w' :
  n <= 0 \/ dataset self = [] ->
  benchmark_model show ticks self n (name, e) (al, f) w = (Ok (al', f'), w') ->
  al' = mk_all (dict_set name [] (all_bpsp al))
               (dict_set name [] (all_throughput al))
               (dict_set name [] (all_dthroughput al)).
Proof.
  intros Hempty H. apply benchmark_model_ok in H.
  destruct H as (xs & ms & Hxs & Hloop & ->).
  assert (Hzip : zip3 xs (lens self) (py_range n) = []).
  { destruct Hempty as [Hn | Hds].
    - rewrite (py_range_empty Hn). apply zip3_nil_r.
    - rewrite Hds in Hxs. inversion Hxs. reflexivity. }
  rewrite Hzip in Hloop. simpl in Hloop. unfold ret in Hloop.
  inversion Hloop. reflexivity.
Qed.

(** C7. When the measurement completes with no image measured for the
    registered models ([num_images] not positive, or an empty dataset),
    [benchmark] raises [ZeroDivisionError] at the first mean, in the world
    the measurement left: nothing is printed. *)
Theorem empty_measurement_raises (self : llimcobe obj) n w r w1 :
  models self <> [] ->
  n <= 0 \/ dataset self = [] ->
  benchmark_measure show ticks self n w = (Ok r, w1) ->
  mean [] = Raise ZeroDivisionError /\
  benchmark show ticks self n w = (Raise ZeroDivisionError, w1).
Proof.
  intros Hmodels Hempty H. split; [reflexivity |].
  destruct (models self) as [| [name0 e0] rest] eqn:Hm; [contradiction |].
  assert (Hget : dict_get name0 (all_bpsp (fst r)) = Some []).
  { unfold benchmark_measure in H. rewrite Hm in H. cbn [for_each] in H.
    apply bind_ok in H. destruct H as ([al1 f1] & w0 & Hfirst & Hrest).
    eapply benchmark_model_empty in Hfirst; [| exact Hempty].
    apply (for_each_invariant (benchmark_model show ticks self n)
             (fun st _ => dict_get name0 (all_bpsp (fst st)) = Some []))
      in Hrest.
    - exact Hrest.
    - intros [name e] [al2 f2] v [al3 f3] v' _ Hi Hstep.
      eapply benchmark_model_empty in Hstep; [| exact Hempty].
      subst al3. simpl in *.
      destruct (string_dec name0 name) as [-> | Hne].
      + apply dict_get_set.
      + rewrite dict_get_set_other by exact Hne. exact Hi.
    - subst al1. simpl. rewrite String.eqb_refl. reflexivity. }
  unfold benchmark. rewrite (bind_step _ _ _ H).
  destruct r as [al f]. simpl in Hget.
  apply bind_raise. unfold report. rewrite Hm. cbn [for_each].
  apply bind_raise. unfold report_model, bind, lookup.
  rewrite Hget. reflexivity.
Qed.

(** C10. A completed pass over a model first called its [preprocess]
    once for every image of the dataset and then measured as many images
    as the smaller of [num_images] and the length of the dataset; and
    when the [preprocess] of a registered model raises on some image of
    the dataset, wherever it stands, [benchmark] ends with an exception
    whatever [num_images] is. *)
Theorem preprocess_whole_dataset :
  (forall (self : llimcobe obj) n name e al f w al' f' w',
     List.length (lens self) = List.length (dataset self) ->
     benchmark_model show ticks self n (name, e) (al, f) w = (Ok (al', f'), w') ->
     exists tr bs,
       trace w' = trace w
                  ++ repeat (EvCall name HPreprocess) (List.length (dataset self))
                  ++ tr /\
       dict_get name (all_bpsp al') = Some bs /\
       List.length bs = Nat.min (Z.to_nat n) (List.length (dataset self)))
  /\ (forall (self : llimcobe obj) n name e a err w,
        In (name, e) (models self) ->
        In a (dataset self) ->
        call (preprocess e) a = Raise err ->
        exists err' w', benchmark show ticks self n w = (Raise err', w')).
Proof.
  split.
  - intros self n name e al f w al' f' w' Hlen H.
    apply benchmark_model_ok in H.
    destruct H as (xs & ms & Hxs & Hloop & ->).
    apply measure_loop in Hloop.
    destruct Hloop as (bs & tr & Hbs & Htr & _ & _ & _ & _ & Hlenbs).
    simpl in Hbs, Htr. subst bs.
    exists tr, (bpsp ms).
    split; [rewrite Htr, <- app_assoc; reflexivity |].
    split; [simpl; apply dict_get_set |].
    rewrite Hlenbs, zip3_length, py_range_length, Hlen.
    apply Forall2_length in Hxs. rewrite <- Hxs. lia.
  - intros self n name e a err w Hreg Hin Ha.
    assert (Hm : exists err' w',
               benchmark_measure show ticks self n w = (Raise err', w')).
    { unfold benchmark_measure.
      apply (for_each_raises (benchmark_model show ticks self n) _ _ Hreg).
      intros [al f] v. unfold benchmark_model.
      destruct (map_preprocess_raises name _ _ _ Hin Ha v) as (err' & v' & Hr).
      exists err', v'. apply bind_raise. exact Hr. }
    destruct Hm as (err' & w' & Hm). exists err', w'.
    unfold benchmark. apply bind_raise. exact Hm.
Qed.

End Run.

(** ** The properties on the concrete harness *)

Lemma get_model_del_model_witness :
  let self' := Ex.with_model "raw" Ex.lossless Ex.harness in
  set_model Ex.array_eq Ex.harness (Some "raw"%string) None (Some Ex.identity)
    (Some Ex.save_raw) (Some Ex.load_raw) (Some Ex.array_eq) = (true, self') /\
  get_model self' (Some "raw"%string) = GotSave (Some Ex.save_raw) /\
  fst (del_model self' (Some "raw"%string)) = true /\
  get_model (snd (del_model self' (Some "raw"%string))) (Some "raw"%string)
  = GotFalse.
Proof.
  split; [reflexivity |].
  destruct (get_model_del_model Ex.array_eq Ex.harness (Some "raw"%string)
              None (Some Ex.identity) (Some Ex.save_raw) (Some Ex.load_raw)
              (Some Ex.array_eq) eq_refl) as (Hget & Hdel & Hgone & _).
  split; [exact Hget |]. split; [exact Hdel | exact Hgone].
Defined.

Lemma compare_defaults_to_equality_witness :
  exists e,
    dict_get "raw"
      (models (snd (set_model Ex.array_eq Ex.harness (Some "raw"%string) None
                      (Some Ex.identity) (Some Ex.save_raw) (Some Ex.load_raw)
                      None)))
    = Some e /\
    forall x y, compare e x y = Ex.array_eq x y.
Proof.
  destruct (compare_defaults_to_equality Ex.array_eq Ex.harness
              (Some "raw"%string) None (Some Ex.identity) (Some Ex.save_raw)
              (Some Ex.load_raw) None eq_refl) as (k & e & Hk & Hget & Hcmp).
  inversion Hk. subst k. exists e. split; [exact Hget | exact Hcmp].
Defined.

Lemma bpsp_is_bits_per_element_witness :
  lens Ex.two_codecs = map np_size (dataset Ex.two_codecs) /\
  exists al' f' w',
    benchmark_model Ex.no_show Ex.clock Ex.two_codecs 3
      ("half"%string, Ex.halving) (Ex.no_results, false) Ex.fresh
    = (Ok (al', f'), w') /\
    exists b1 b2 b3,
      dict_get "half" (all_bpsp al') = Some [b1; b2; b3] /\
      (b1 == 4)%Q /\ (b2 == 4)%Q /\ (b3 == 4)%Q /\
      getsizes (trace w') = [2; 2; 2].
Proof.
  split; [reflexivity |].
  destruct (benchmark_model Ex.no_show Ex.clock Ex.two_codecs 3
              ("half"%string, Ex.halving) (Ex.no_results, false) Ex.fresh)
    as [[[al' f'] | err] w'] eqn:E; [| vm_compute in E; discriminate E].
  exists al', f', w'. split; [reflexivity |].
  destruct (bpsp_is_bits_per_element Ex.no_show Ex.clock Ex.two_codecs 3
              "half" Ex.halving Ex.no_results false Ex.fresh eq_refl E)
    as (bs & tr & contents & Hget & Hlen & Hclen & Hall & Htr & Hg & _).
  assert (Hsize : forall content a image,
             In a Ex.images ->
             call (preprocess Ex.halving) a = Ok image ->
             artifact_of Ex.halving (slot Ex.fresh) image content ->
             Z.of_nat (List.length content) = 2).
  { intros content a image Ha Hpre
      (sf & lf & x & s0 & s1 & loaded & Hsave & Hload & Hx & _ & Hsf & Hlf).
    unfold Ex.halving in Hpre, Hsave, Hload, Hx.
    cbn [preprocess save load model call] in Hpre, Hsave, Hload, Hx.
    unfold Ex.identity in Hpre.
    injection Hpre as <-. injection Hsave as <-. injection Hload as <-.
    subst x. unfold Ex.save_half in Hsf. injection Hsf as <-.
    unfold Ex.load_raw in Hlf. injection Hlf as _ <-.
    rewrite repeat_length.
    destruct Ha as [<- | [<- | [<- | []]]]; reflexivity. }
  change (List.length bs = 3%nat) in Hlen.
  destruct bs as [| b1 [| b2 [| b3 [| b4 bs]]]]; try discriminate Hlen.
  destruct contents as [| c1 [| c2 [| c3 [| c4 contents]]]];
    try discriminate Hclen.
  change (dataset Ex.two_codecs) with [Ex.image 0; Ex.image 10; Ex.image 20]
    in Hall.
  cbn [combine] in Hall.
  apply Forall2_cons_iff in Hall. destruct Hall as [H1 Hall].
  apply Forall2_cons_iff in Hall. destruct Hall as [H2 Hall].
  apply Forall2_cons_iff in Hall. destruct Hall as [H3 _].
  cbv zeta in H1, H2, H3.
  destruct H1 as ((i1 & Hp1 & Ha1) & _ & Hf1).
  destruct H2 as ((i2 & Hp2 & Ha2) & _ & Hf2).
  destruct H3 as ((i3 & Hp3 & Ha3) & _ & Hf3).
  apply (Hsize c1 (Ex.image 0) i1) in Ha1; [| left; reflexivity | exact Hp1].
  apply (Hsize c2 (Ex.image 10) i2) in Ha2;
    [| right; left; reflexivity | exact Hp2].
  apply (Hsize c3 (Ex.image 20) i3) in Ha3;
    [| right; right; left; reflexivity | exact Hp3].
  exists b1, b2, b3. split; [exact Hget |].
  split; [apply Hf1; rewrite Ha1; reflexivity |].
  split; [apply Hf2; rewrite Ha2; reflexivity |].
  split; [apply Hf3; rewrite Ha3; reflexivity |].
  change (trace Ex.fresh ++ tr) with tr in Htr.
  rewrite Htr, Hg. cbn [map]. rewrite Ha1, Ha2, Ha3. reflexivity.
Defined.

Lemma throughput_from_raw_array_witness :
  exists ms' f' w',
    measure Ex.no_show Ex.clock "raw" Ex.lossless (Ex.image 0, 4, 0)
      (no_metrics, false) Ex.fresh = (Ok (ms', f'), w') /\
    exists lf s1 s2 loaded c d,
      load Ex.lossless = Some lf /\ lf s1 = (Ok loaded, s2) /\
      compression_throughput ms' = [c] /\
      decompression_throughput ms' = [d] /\
      (c == (inject_Z 4 * inject_Z (8 * itemsize loaded) / inject_Z (8 * 10 ^ 6))
            / (Ex.clock 1 - Ex.clock 0))%Q /\
      (d == (inject_Z 4 * inject_Z (8 * itemsize loaded) / inject_Z (8 * 10 ^ 6))
            / (Ex.clock 3 - Ex.clock 2))%Q.
Proof.
  eexists _, _, _. split; [vm_compute; reflexivity |].
  eapply (throughput_from_raw_array Ex.no_show Ex.clock "raw" Ex.lossless
            (Ex.image 0) 4 0 no_metrics false Ex.fresh).
  vm_compute. reflexivity.
Defined.

Lemma empty_measurement_raises_witness :
  models Ex.two_codecs <> [] /\
  (0 <= 0 \/ dataset Ex.two_codecs = []) /\
  exists r w1,
    benchmark_measure Ex.no_show Ex.clock Ex.two_codecs 0 Ex.fresh = (Ok r, w1) /\
    mean [] = Raise ZeroDivisionError /\
    benchmark Ex.no_show Ex.clock Ex.two_codecs 0 Ex.fresh
    = (Raise ZeroDivisionError, w1).
Proof.
  split; [discriminate |]. split; [left; lia |].
  eexists _, _. split; [vm_compute; reflexivity |].
  eapply (empty_measurement_raises Ex.no_show Ex.clock Ex.two_codecs Ex.fresh).
  - discriminate.
  - left. lia.
  - vm_compute. reflexivity.
Defined.

Lemma lossy_flag_set_once_witness :
  exists al w',
    benchmark_measure Ex.no_show Ex.clock Ex.two_codecs 3 Ex.fresh
    = (Ok (al, true), w') /\
    exists tr, trace w' = trace Ex.fresh ++ tr /\ warnings tr = 1%nat.
Proof.
  eexists _, _. split; [vm_compute; reflexivity |].
  eapply (proj2 (lossy_flag_set_once Ex.no_show Ex.clock) Ex.two_codecs 3
            Ex.fresh _ true).
  vm_compute. reflexivity.
Defined.

Lemma scratch_slot_single_use_witness :
  slot (snd (init ndarray Ex.images Ex.stale)) = None /\
  exists r w',
    benchmark_measure Ex.no_show Ex.clock Ex.two_codecs 3 Ex.fresh = (Ok r, w') /\
    slot w' = None.
Proof.
  split; [apply (proj1 (scratch_slot_single_use Ex.no_show Ex.clock)) |].
  eexists _, _. split; [vm_compute; reflexivity |].
  eapply (proj2 (proj2 (proj2 (scratch_slot_single_use Ex.no_show Ex.clock)))
            Ex.two_codecs 3 Ex.fresh).
  - reflexivity.
  - vm_compute. reflexivity.
Defined.

Lemma preprocess_whole_dataset_witness :
  let self := Ex.with_model "fussy" Ex.fussy Ex.harness in
  In ("fussy"%string, Ex.fussy) (models self) /\
  In (Ex.image 20) (dataset self) /\
  call (preprocess Ex.fussy) (Ex.image 20) = Raise (HookError "unsupported image") /\
  exists err' w',
    benchmark Ex.no_show Ex.clock self 1 Ex.fresh = (Raise err', w').
Proof.
  assert (Hreg : In ("fussy"%string, Ex.fussy)
                   (models (Ex.with_model "fussy" Ex.fussy Ex.harness)))
    by (left; reflexivity).
  assert (Hin : In (Ex.image 20)
                  (dataset (Ex.with_model "fussy" Ex.fussy Ex.harness)))
    by (right; right; left; reflexivity).
  assert (Hraise : call (preprocess Ex.fussy) (Ex.image 20)
                   = Raise (HookError "unsupported image")) by reflexivity.
  split; [exact Hreg |]. split; [exact Hin |]. split; [exact Hraise |].
  exact (proj2 (preprocess_whole_dataset Ex.no_show Ex.clock) _ 1 _ _ _ _
           Ex.fresh Hreg Hin Hraise).
Defined.

(** C9, as it is stated, fails: with objects that have no [show]
    attribute (arrays) the mismatch is warned about, the iteration
    completes, and no display operation is started or joined. *)
Lemma display_without_show_starts_no_thread :
  let r := measure Ex.no_show Ex.clock "flip" Ex.lossy (Ex.image 0, 4, 0)
             (no_metrics, false) Ex.fresh in
  is_ok (fst r) = true /\
  trace (snd r)
  = [EvCall "flip" HSave; EvCall "flip" HLoad; EvCall "flip" HPreprocess;
     EvCall "flip" HCompare; EvWarn mismatch_warning; EvGetsize 4; EvRemove] /\
  ~ In (EvThreadStart 1) (trace (snd r)) /\
  ~ In (EvThreadStart 2) (trace (snd r)) /\
  ~ In (EvThreadJoin 1) (trace (snd r)) /\
  ~ In (EvThreadJoin 2) (trace (snd r)).
Proof.
  vm_compute.
  repeat split; try reflexivity;
    intros H; repeat (destruct H as [H | H]; [discriminate H |]); exact H.
Qed.

(** * Further properties *)

(** ** Dictionaries *)

Lemma dict_get_none_keys {V} (k : string) (d : list (string * V)) :
  dict_get k d = None <-> ~ In k (map fst d).
Proof.
  induction d as [| [k' v] d IH]; simpl.
  - split; [intros _ [] | reflexivity].
  - destruct (String.eqb k k') eqn:E.
    + apply String.eqb_eq in E. subst k'.
      split; [discriminate | intros H; exfalso; apply H; left; reflexivity].
    + apply String.eqb_neq in E. rewrite IH. split.
      * intros H [Hk | Hk]; [apply E; symmetry; exact Hk | exact (H Hk)].
      * intros H Hk. apply H. right. exact Hk.
Qed.

Lemma dict_set_names {V} (k : string) (v : V) d :
  map fst (dict_set k v d)
  = if dict_mem k d then map fst d else map fst d ++ [k].
Proof.
  unfold dict_mem. induction d as [| [k' v'] d IH]; simpl.
  - reflexivity.
  - destruct (String.eqb k k') eqn:E; simpl.
    + reflexivity.
    + rewrite IH. destruct (dict_get k d); reflexivity.
Qed.

Lemma dict_del_names {V} (k : string) (d : list (string * V)) :
  map fst (dict_del k d)
  = filter (fun k' => negb (String.eqb k k')) (map fst d).
Proof.
  induction d as [| [k' v'] d IH]; simpl.
  - reflexivity.
  - destruct (String.eqb k k'); simpl; rewrite IH; reflexivity.
Qed.

Lemma dict_get_del_other {V} (k k' : string) (d : list (string * V)) :
  k' <> k -> dict_get k' (dict_del k d) = dict_get k' d.
Proof.
  intros Hne. induction d as [| [k0 v0] d IH]; simpl.
  - reflexivity.
  - destruct (String.eqb k k0) eqn:E; simpl.
    + apply String.eqb_eq in E. subst k0.
      apply String.eqb_neq in Hne. rewrite Hne. exact IH.
    + rewrite IH. reflexivity.
Qed.

Lemma dict_del_absent {V} (k : string) (d : list (string * V)) :
  dict_get k d = None -> dict_del k d = d.
Proof.
  induction d as [| [k' v'] d IH]; simpl.
  - reflexivity.
  - destruct (String.eqb k k'); [discriminate |].
    intros H. rewrite (IH H). reflexivity.
Qed.

Lemma dict_del_set {V} (k : string) (v : V) d :
  dict_del k (dict_set k v d) = dict_del k d.
Proof.
  induction d as [| [k' v'] d IH]; simpl.
  - rewrite String.eqb_refl. reflexivity.
  - destruct (String.eqb k k') eqn:E; simpl; rewrite E.
    + reflexivity.
    + rewrite IH. reflexivity.
Qed.

(** ** The registry, continued *)

Section RegistryFrame.

Context {obj : Type}.
Variable py_eq : obj -> obj -> result bool.

Lemma set_model_accepted (self self' : llimcobe obj) (name : option string)
    (m : option (model_hook obj)) (p : option (preprocess_hook obj))
    (s : option (save_hook obj)) (l : option load_hook)
    (c : option (compare_hook obj)) :
  set_model py_eq self name m p s l c = (true, self') ->
  exists k e,
    name = Some k /\
    self' = mk_llimcobe (dict_set k e (models self)) (dataset self) (lens self) /\
    model e = m /\ preprocess e = p /\ save e = s /\ load e = l /\
    truthy s = true /\ truthy l = true.
Proof.
  unfold set_model. rewrite set_model_condition.
  destruct (truthy_name name && truthy s && truthy l) eqn:E;
    [| discriminate].
  destruct name as [k |]; [| discriminate].
  intros H. inversion H. eexists k, _.
  apply andb_true_iff in E. destruct E as [E El].
  apply andb_true_iff in E. destruct E as [_ Es].
  repeat split; assumption.
Qed.

(** X1. The constructor makes a well-formed object, with no model; and
    [set_model] (accepted or not) and [del_model] keep an object
    well-formed and never touch the dataset. *)
Theorem registry_keeps_well_formed (self : llimcobe obj) (name : option string)
    (m : option (model_hook obj)) (p : option (preprocess_hook obj))
    (s : option (save_hook obj)) (l : option load_hook)
    (c : option (compare_hook obj)) :
  well_formed self ->
  well_formed (snd (set_model py_eq self name m p s l c))
  /\ dataset (snd (set_model py_eq self name m p s l c)) = dataset self
  /\ well_formed (snd (del_model self name))
  /\ dataset (snd (del_model self name)) = dataset self
  /\ forall ds w,
       well_formed (fst (init obj ds w)) /\
       models (fst (init obj ds w)) = [] /\
       dataset (fst (init obj ds w)) = ds.
Proof.
  intros [Hnd Hlens].
  split; [| split; [| split; [| split]]].
  - unfold set_model.
    destruct ((truthy_name name && truthy m && truthy s && truthy l)
              || (truthy_name name && truthy s && truthy l));
      [| split; assumption].
    destruct name as [k |]; [| split; assumption].
    split; [| exact Hlens]. simpl. rewrite dict_set_names.
    unfold dict_mem. destruct (dict_get k (models self)) eqn:E; [exact Hnd |].
    apply dict_get_none_keys in E.
    apply NoDup_app; [exact Hnd | constructor; [intros [] | constructor] |].
    intros x Hx [Hk | []]. subst x. exact (E Hx).
  - unfold set_model.
    destruct ((truthy_name name && truthy m && truthy s && truthy l)
              || (truthy_name name && truthy s && truthy l));
      [| reflexivity].
    destruct name; reflexivity.
  - unfold del_model. destruct name as [k |]; [| split; assumption].
    destruct (dict_mem k (models self)); [| split; assumption].
    split; [| exact Hlens]. simpl. rewrite dict_del_names.
    apply NoDup_filter. exact Hnd.
  - unfold del_model. destruct name as [k |]; [| reflexivity].
    destruct (dict_mem k (models self)); reflexivity.
  - intros ds w. repeat split. constructor.
Qed.

(** X2. An accepted [set_model] changes what [get_model] returns for no
    other name, and keeps the order of the models: a name that was
    registered keeps its place, a new name comes last. *)
Theorem set_model_frame (self self' : llimcobe obj) (k : string)
    (m : option (model_hook obj)) (p : option (preprocess_hook obj))
    (s : option (save_hook obj)) (l : option load_hook)
    (c : option (compare_hook obj)) :
  set_model py_eq self (Some k) m p s l c = (true, self') ->
  (forall k', k' <> k ->
     get_model self' (Some k') = get_model self (Some k'))
  /\ map fst (models self')
     = if registered self (Some k)
       then map fst (models self)
       else map fst (models self) ++ [k].
Proof.
  intros H. apply set_model_accepted in H.
  destruct H as (k0 & e & Hk & -> & _). inversion Hk. subst k0.
  split.
  - intros k' Hne. unfold get_model. simpl.
    rewrite dict_get_set_other by exact Hne. reflexivity.
  - simpl. apply dict_set_names.
Qed.

(** X3. [del_model] changes what [get_model] returns for no other name,
    keeps the other models in their order, and a second [del_model] of
    the same name returns false and changes nothing. *)
Theorem del_model_frame (self : llimcobe obj) (k : string) :
  let self' := snd (del_model self (Some k)) in
  (forall k', k' <> k ->
     get_model self' (Some k') = get_model self (Some k'))
  /\ map fst (models self')
     = filter (fun k' => negb (String.eqb k k')) (map fst (models self))
  /\ del_model self' (Some k) = (false, self').
Proof.
  cbv zeta. unfold del_model, dict_mem.
  destruct (dict_get k (models self)) eqn:E; simpl.
  - split; [| split].
    + intros k' Hne. unfold get_model. simpl.
      rewrite dict_get_del_other by exact Hne. reflexivity.
    + apply dict_del_names.
    + rewrite dict_get_del. reflexivity.
  - split; [| split].
    + reflexivity.
    + apply dict_get_none_keys in E.
      symmetry. apply forallb_filter_id. apply forallb_forall.
      intros x Hx. apply negb_true_iff. apply String.eqb_neq.
      intros ->. exact (E Hx).
    + rewrite E. reflexivity.
Qed.

(** X4. Deleting a name just after registering it gives the models that
    deleting it without registering gives; when the name was not
    registered that is the object as it was. *)
Theorem set_then_del_model (self self' : llimcobe obj) (k : string)
    (m : option (model_hook obj)) (p : option (preprocess_hook obj))
    (s : option (save_hook obj)) (l : option load_hook)
    (c : option (compare_hook obj)) :
  set_model py_eq self (Some k) m p s l c = (true, self') ->
  models (snd (del_model self' (Some k)))
  = models (snd (del_model self (Some k)))
  /\ (registered self (Some k) = false ->
      snd (del_model self' (Some k)) = self).
Proof.
  intros H. apply set_model_accepted in H.
  destruct H as (k0 & e & Hk & -> & _). inversion Hk. subst k0.
  assert (Hdel : models (snd (del_model
                   (mk_llimcobe (dict_set k e (models self)) (dataset self)
                      (lens self)) (Some k)))
                 = dict_del k (models self)).
  { unfold del_model, dict_mem. simpl. rewrite dict_get_set. simpl.
    apply dict_del_set. }
  split.
  - rewrite Hdel. unfold del_model, dict_mem.
    destruct (dict_get k (models self)) eqn:E; simpl; [reflexivity |].
    apply dict_del_absent. exact E.
  - simpl. unfold dict_mem.
    destruct (dict_get k (models self)) eqn:E; [discriminate |]. intros _.
    unfold del_model, dict_mem. simpl. rewrite dict_get_set. simpl.
    rewrite dict_del_set, (dict_del_absent _ _ E).
    destruct self. reflexivity.
Qed.

End RegistryFrame.

(** ** One iteration that fails *)

Section IterationFails.

Context {obj : Type}.
Variable show : obj -> option (result unit).
Variable ticks : nat -> Q.

(** Unfolds an iteration down to the hooks. *)
Ltac run_hooks :=
  unfold measure, compress, call_model, call_save, call_load,
    call_preprocess, call_compare, bind, perf_counter, emit, lift;
  simpl.

(** X5. An exception raised by a hook leaves the iteration as that same
    exception, whichever hook it is ([model], [save], [load], the
    [preprocess] of the loaded array or [compare]), and the slot is then
    as the last hook that was handed the path left it: the harness does
    not remove the artifact of a failed iteration. *)
Theorem hook_failure_propagates name (e : entry obj) image N i ms f w err :
  let r := measure show ticks name e (image, N, i) (ms, f) w in
  (forall m, model e = Some m -> m image = Raise err ->
     fst r = Raise err /\ slot (snd r) = slot w)
  /\ (forall sf x s1,
        save e = Some sf ->
        match model e with Some m => m image = Ok x | None => x = image end ->
        sf x (slot w) = (Raise err, s1) ->
        fst r = Raise err /\ slot (snd r) = s1)
  /\ (forall sf x s1 lf s2,
        save e = Some sf ->
        match model e with Some m => m image = Ok x | None => x = image end ->
        sf x (slot w) = (Ok tt, s1) ->
        load e = Some lf -> lf s1 = (Raise err, s2) ->
        fst r = Raise err /\ slot (snd r) = s2)
  /\ (forall sf x s1 lf loaded s2,
        save e = Some sf ->
        match model e with Some m => m image = Ok x | None => x = image end ->
        sf x (slot w) = (Ok tt, s1) ->
        load e = Some lf -> lf s1 = (Ok loaded, s2) ->
        call (preprocess e) loaded = Raise err ->
        fst r = Raise err /\ slot (snd r) = s2)
  /\ (forall sf x s1 lf loaded s2 pre,
        save e = Some sf ->
        match model e with Some m => m image = Ok x | None => x = image end ->
        sf x (slot w) = (Ok tt, s1) ->
        load e = Some lf -> lf s1 = (Ok loaded, s2) ->
        call (preprocess e) loaded = Ok pre ->
        compare e image pre = Raise err ->
        fst r = Raise err /\ slot (snd r) = s2).
Proof.
  cbv zeta. split; [| split; [| split; [| split]]].
  - intros m Hm Hr. run_hooks. rewrite Hm. simpl. rewrite Hr. simpl.
    split; reflexivity.
  - intros sf x s1 Hsave Hmodel Hsf. run_hooks. rewrite Hsave.
    destruct (model e) as [m |]; simpl.
    + rewrite Hmodel. simpl. rewrite Hsf. split; reflexivity.
    + subst x. rewrite Hsf. split; reflexivity.
  - intros sf x s1 lf s2 Hsave Hmodel Hsf Hload Hlf. run_hooks.
    rewrite Hsave, Hload.
    destruct (model e) as [m |]; simpl.
    + rewrite Hmodel. simpl. rewrite Hsf. simpl. rewrite Hlf.
      split; reflexivity.
    + subst x. rewrite Hsf. simpl. rewrite Hlf. split; reflexivity.
  - intros sf x s1 lf loaded s2 Hsave Hmodel Hsf Hload Hlf Hpre. run_hooks.
    rewrite Hsave, Hload.
    destruct (model e) as [m |]; simpl.
    + rewrite Hmodel. simpl. rewrite Hsf. simpl. rewrite Hlf. simpl.
      rewrite Hpre. split; reflexivity.
    + subst x. rewrite Hsf. simpl. rewrite Hlf. simpl. rewrite Hpre.
      split; reflexivity.
  - intros sf x s1 lf loaded s2 pre Hsave Hmodel Hsf Hload Hlf Hpre Hcmp.
    run_hooks. rewrite Hsave, Hload.
    destruct (model e) as [m |]; simpl.
    + rewrite Hmodel. simpl. rewrite Hsf. simpl. rewrite Hlf. simpl.
      rewrite Hpre, Hcmp. split; reflexivity.
    + subst x. rewrite Hsf. simpl. rewrite Hlf. simpl.
      rewrite Hpre, Hcmp. split; reflexivity.
Qed.

Section HooksSucceed.

Variables (name : string) (e : entry obj) (image : obj) (N i : Z)
  (ms : metrics) (f : bool) (w : world).
Variables (sf : save_hook obj) (x : obj) (s1 : option (list byte))
  (lf : load_hook) (loaded : ndarray) (s2 : option (list byte))
  (pre : obj) (same : bool).

Hypothesis Hsave : save e = Some sf.
Hypothesis Hmodel :
  match model e with Some m => m image = Ok x | None => x = image end.
Hypothesis Hsf : sf x (slot w) = (Ok tt, s1).
Hypothesis Hload : load e = Some lf.
Hypothesis Hlf : lf s1 = (Ok loaded, s2).
Hypothesis Hpre : call (preprocess e) loaded = Ok pre.
Hypothesis Hsame : compare e image pre = Ok same.

(** The iteration, once its hooks have returned. *)
Lemma measure_after_hooks :
  measure show ticks name e (image, N, i) (ms, f) w
  = bind getsize
      (fun size =>
         remove ;;;
         b <- lift (py_truediv (inject_Z (size * 8)) (inject_Z N)) ;;
         megabytes <- lift (py_truediv (inject_Z (N * (itemsize loaded * 8)))
                                       (inject_Z (8 * 10 ^ 6))) ;;
         c <- lift (py_truediv megabytes
                      (ticks (1 + now w) - ticks (now w))%Q) ;;
         megabytes <- lift (py_truediv (inject_Z (N * (itemsize loaded * 8)))
                                       (inject_Z (8 * 10 ^ 6))) ;;
         d <- lift (py_truediv megabytes
                      (ticks (3 + now w) - ticks (2 + now w))%Q) ;;
         ret (mk_metrics (bpsp ms ++ [b])
                         (compression_throughput ms ++ [c])
                         (decompression_throughput ms ++ [d]),
              f || negb same))
      (mk_world (tempdir w) s2 (4 + now w)
         (trace w
          ++ match model e with Some _ => [EvCall name HModel] | None => [] end
          ++ [EvCall name HSave; EvCall name HLoad; EvCall name HPreprocess;
              EvCall name HCompare]
          ++ fidelity_events show image pre same f)).
Proof.
  assert (Hc : forall k t,
             compress name e image (mk_world (tempdir w) (slot w) k t)
             = (Ok tt, mk_world (tempdir w) s1 k
                         (t ++ match model e with
                               | Some _ => [EvCall name HModel]
                               | None => []
                               end ++ [EvCall name HSave]))).
  { intros k t. unfold compress, call_model, call_save, bind, emit, lift.
    rewrite Hsave. destruct (model e) as [m |]; simpl.
    - rewrite Hmodel. simpl. rewrite Hsf. unfold set_slot. simpl.
      rewrite <- app_assoc. reflexivity.
    - subst x. rewrite Hsf. reflexivity. }
  assert (Hl : forall d k t,
             call_load name (load e) (mk_world d s1 k t)
             = (Ok loaded, mk_world d s2 k (t ++ [EvCall name HLoad]))).
  { intros d k t. unfold call_load, bind, emit. rewrite Hload. simpl.
    rewrite Hlf. reflexivity. }
  assert (Hp : forall v,
             call_preprocess name (preprocess e) loaded v
             = (Ok pre, mk_world (tempdir v) (slot v) (now v)
                          (trace v ++ [EvCall name HPreprocess]))).
  { intros v. unfold call_preprocess, bind, emit, lift. simpl.
    rewrite Hpre. reflexivity. }
  assert (Hq : forall v,
             call_compare name (compare e) image pre v
             = (Ok same, mk_world (tempdir v) (slot v) (now v)
                           (trace v ++ [EvCall name HCompare]))).
  { intros v. unfold call_compare, bind, emit, lift. simpl.
    rewrite Hsame. reflexivity. }
  unfold measure.
  erewrite bind_step; [| reflexivity].
  erewrite bind_step; [| apply Hc].
  erewrite bind_step; [| reflexivity].
  erewrite bind_step; [| reflexivity].
  erewrite bind_step; [| apply Hl].
  erewrite bind_step; [| reflexivity].
  erewrite bind_step; [| apply Hp].
  erewrite bind_step; [| apply Hq].
  erewrite bind_step; [| apply fidelity_check_run].
  simpl. repeat rewrite <- app_assoc. reflexivity.
Qed.

(** X6. When every hook returns but no file is in the slot when its
    size is read (the codec wrote nothing there, or [load] removed it),
    the iteration raises [FileNotFoundError]; nothing is recorded. *)
Theorem missing_artifact_raises :
  s2 = None ->
  let r := measure show ticks name e (image, N, i) (ms, f) w in
  fst r = Raise FileNotFoundError /\
  slot (snd r) = None /\ getsizes (trace (snd r)) = getsizes (trace w).
Proof.
  intros Hs2. cbv zeta. rewrite measure_after_hooks. subst s2.
  unfold bind, getsize. simpl. split; [reflexivity |]. split; [reflexivity |].
  destruct (fidelity_events_quiet show image pre same f) as (Hg & _ & _).
  rewrite getsizes_app.
  destruct (model e); simpl; rewrite Hg; apply app_nil_r.
Qed.

(** X7. When every hook returns and the artifact is there, an image
    with no element ([length] 0) or a compression or decompression that
    takes no time by the clock makes the iteration raise
    [ZeroDivisionError]; the artifact has been removed by then. *)
Theorem zero_division_after_removal (content : list byte) :
  s2 = Some content ->
  N = 0 \/ (ticks (1 + now w) - ticks (now w) == 0)%Q
  \/ (ticks (3 + now w) - ticks (2 + now w) == 0)%Q ->
  let r := measure show ticks name e (image, N, i) (ms, f) w in
  fst r = Raise ZeroDivisionError /\
  slot (snd r) = None /\
  getsizes (trace (snd r))
  = getsizes (trace w) ++ [Z.of_nat (List.length content)].
Proof.
  intros Hs2 Hzero. cbv zeta. rewrite measure_after_hooks. subst s2.
  unfold bind, getsize, remove, emit, ret, lift. simpl.
  assert (Htr : getsizes
                  ((trace w
                    ++ match model e with
                       | Some _ => [EvCall name HModel]
                       | None => []
                       end
                    ++ EvCall name HSave :: EvCall name HLoad
                       :: EvCall name HPreprocess :: EvCall name HCompare
                       :: fidelity_events show image pre same f)
                   ++ [EvGetsize (Z.of_nat (List.length content))]
                   ++ [EvRemove])
                = getsizes (trace w) ++ [Z.of_nat (List.length content)]).
  { destruct (fidelity_events_quiet show image pre same f) as (Hg & _ & _).
    rewrite !getsizes_app.
    destruct (model e); simpl; rewrite Hg; rewrite app_nil_r; reflexivity. }
  unfold py_truediv.
  destruct (Qeq_bool (inject_Z N) 0) eqn:EN.
  { simpl. repeat split. rewrite <- app_assoc. exact Htr. }
  simpl.
  destruct (Qeq_bool (ticks (S (now w)) - ticks (now w)) 0) eqn:E1.
  { simpl. repeat split. rewrite <- app_assoc. exact Htr. }
  destruct (Qeq_bool (ticks (S (S (S (now w)))) - ticks (S (S (now w)))) 0)
    eqn:E2.
  { simpl. repeat split. rewrite <- app_assoc. exact Htr. }
  exfalso. destruct Hzero as [HN | [H1 | H2]].
  - subst N. discriminate EN.
  - apply Qeq_bool_iff in H1. simpl in H1. congruence.
  - apply Qeq_bool_iff in H2. simpl in H2. congruence.
Qed.

End HooksSucceed.

End IterationFails.

(** ** Whole runs *)

Section RunFurther.

Context {obj : Type}.
Variable show : obj -> option (result unit).
Variable ticks : nat -> Q.

(** X8. With no model registered [benchmark] returns without raising,
    printing or touching the slot or the clock, whatever [num_images]
    is: the world is left as it was. *)
Theorem benchmark_without_models (self : llimcobe obj) n w :
  models self = [] ->
  benchmark show ticks self n w = (Ok tt, w).
Proof.
  intros H.
  unfold benchmark, benchmark_measure, report, plot_sorted, scatter.
  rewrite H. reflexivity.
Qed.

(** What a completed iteration leaves, continued: the clock, the
    diagnostic and the lengths of the three lists. *)
Lemma measure_effects name (e : entry obj) image N i ms f w ms' f' w' :
  measure show ticks name e (image, N, i) (ms, f) w = (Ok (ms', f'), w') ->
  now w' = (4 + now w)%nat /\
  List.length (bpsp ms') = S (List.length (bpsp ms)) /\
  List.length (compression_throughput ms')
  = S (List.length (compression_throughput ms)) /\
  List.length (decompression_throughput ms')
  = S (List.length (decompression_throughput ms)) /\
  exists pre same tr,
    compare e image pre = Ok same /\
    f' = f || negb same /\
    trace w' = trace w ++ tr /\
    diagnostics tr = fidelity_events show image pre same f.
Proof.
  intros H. apply measure_ok in H.
  destruct H as (sf & x & tr_m & s1 & lf & loaded & s2 & pre & same & content
                 & _ & _ & Hmodel & _ & _ & _ & Hsame & _ & Hf & Hw & Hms & _).
  cbv zeta in Hms. subst ms' w'.
  cbn [now trace bpsp compression_throughput decompression_throughput].
  split; [reflexivity |].
  rewrite !length_app. cbn [List.length].
  split; [lia |]. split; [lia |]. split; [lia |].
  exists pre, same. eexists. split; [exact Hsame |]. split; [exact Hf |].
  split; [reflexivity |].
  destruct (fidelity_events_quiet show image pre same f) as (_ & _ & Hdiag).
  assert (Hd0 : diagnostics tr_m = []).
  { destruct (model e); destruct Hmodel as [_ ->]; reflexivity. }
  rewrite diagnostics_app, Hd0.
  change (diagnostics
            ([EvCall name HSave; EvCall name HLoad; EvCall name HPreprocess;
              EvCall name HCompare]
             ++ fidelity_events show image pre same f
             ++ [EvGetsize (Z.of_nat (List.length content)); EvRemove]))
    with (diagnostics (fidelity_events show image pre same f
                       ++ [EvGetsize (Z.of_nat (List.length content));
                           EvRemove])).
  rewrite diagnostics_app, Hdiag. cbn [app]. apply app_nil_r.
Qed.

(** The inner loop, continued. *)
Lemma measure_loop_effects name (e : entry obj) items :
  forall ms f w ms' f' w',
    for_each items (measure show ticks name e) (ms, f) w = (Ok (ms', f'), w') ->
    now w' = (4 * List.length items + now w)%nat /\
    List.length (bpsp ms') = (List.length items + List.length (bpsp ms))%nat /\
    List.length (compression_throughput ms')
    = (List.length items + List.length (compression_throughput ms))%nat /\
    List.length (decompression_throughput ms')
    = (List.length items + List.length (decompression_throughput ms))%nat /\
    ((forall x y, compare e x y = Ok true) ->
     f' = f /\ exists tr, trace w' = trace w ++ tr /\ diagnostics tr = []).
Proof.
  induction items as [| [[image N] i] items IH]; intros ms f w ms' f' w' H.
  - simpl in H. unfold ret in H. inversion H. subst.
    repeat split; try reflexivity.
    exists []. split; [symmetry; apply app_nil_r | reflexivity].
  - cbn [for_each] in H. step H as st1 w1 Hm. destruct st1 as [ms1 f1].
    apply measure_effects in Hm.
    destruct Hm as (Hnow & Hb & Hc & Hd & pre & same & tr1 & Hsame & Hf1
                    & Htr1 & Hdiag1).
    apply IH in H. destruct H as (Hnow' & Hb' & Hc' & Hd' & Hless).
    cbn [List.length].
    split; [lia |]. split; [lia |]. split; [lia |]. split; [lia |].
    intros Hcmp. destruct (Hless Hcmp) as (Hf' & tr & Htr & Hdiag).
    rewrite Hcmp in Hsame. inversion Hsame. subst same.
    rewrite orb_false_r in Hf1. subst f1.
    split; [exact Hf' |].
    exists (tr1 ++ tr).
    split; [rewrite Htr, Htr1, <- app_assoc; reflexivity |].
    rewrite diagnostics_app, Hdiag, Hdiag1. destruct f; reflexivity.
Qed.

Lemma repeat_call_diagnostics name h k :
  diagnostics (repeat (EvCall name h) k) = [].
Proof. induction k as [| k IH]; [reflexivity | exact IH]. Qed.

(** X9. A completed pass over a model reads the clock four times for
    each measured image and not otherwise: around the compression and
    around [load].  ([lens] as long as the dataset, as the constructor
    makes it.) *)
Theorem four_clock_readings_per_image (self : llimcobe obj) n name e
    al f w al' f' w' :
  List.length (lens self) = List.length (dataset self) ->
  benchmark_model show ticks self n (name, e) (al, f) w = (Ok (al', f'), w') ->
  now w' = (now w + 4 * Nat.min (Z.to_nat n) (List.length (dataset self)))%nat.
Proof.
  intros Hlen H. apply benchmark_model_ok in H.
  destruct H as (xs & ms & Hxs & Hloop & _).
  apply measure_loop_effects in Hloop. destruct Hloop as (Hnow & _).
  simpl in Hnow. rewrite Hnow, zip3_length, py_range_length, Hlen.
  apply Forall2_length in Hxs. rewrite <- Hxs. lia.
Qed.

(** X10. When the [compare] of every registered model finds every pair
    equal, a completed measurement ends with the flag unset and has
    emitted no warning and started no display. *)
Theorem lossless_run_never_warns (self : llimcobe obj) n w al f w' :
  (forall name e, In (name, e) (models self) ->
                  forall x y, compare e x y = Ok true) ->
  benchmark_measure show ticks self n w = (Ok (al, f), w') ->
  f = false /\ exists tr, trace w' = trace w ++ tr /\ diagnostics tr = [].
Proof.
  intros Hall H. unfold benchmark_measure in H.
  apply (for_each_invariant (benchmark_model show ticks self n)
           (fun st v => snd st = false /\
                        exists tr, trace v = trace w ++ tr /\
                                   diagnostics tr = [])) in H.
  - exact H.
  - intros [name e] [al1 f1] v [al2 f2] v' Hin (Hf1 & tr1 & Htr1 & Hd1) Hstep.
    simpl in Hf1. subst f1.
    apply benchmark_model_ok in Hstep.
    destruct Hstep as (xs & ms & _ & Hloop & _).
    apply measure_loop_effects in Hloop.
    destruct Hloop as (_ & _ & _ & _ & Hless).
    destruct (Hless (Hall name e Hin)) as (Hf2 & tr2 & Htr2 & Hd2).
    simpl in Htr2. split; [exact Hf2 |].
    exists (tr1 ++ repeat (EvCall name HPreprocess) (List.length (dataset self))
            ++ tr2).
    split; [rewrite Htr2, Htr1, <- !app_assoc; reflexivity |].
    rewrite !diagnostics_app, Hd1, Hd2, repeat_call_diagnostics. reflexivity.
  - split; [reflexivity |]. exists []. split; [symmetry; apply app_nil_r |].
    reflexivity.
Qed.

(** *** Means and sorting *)

Lemma mean_nonempty (l : list Q) :
  l <> [] ->
  mean l = Ok (py_sum l / inject_Z (Z.of_nat (List.length l)))%Q.
Proof.
  intros Hl. unfold mean, py_truediv.
  destruct (Qeq_bool (inject_Z (Z.of_nat (List.length l))) 0) eqn:E;
    [| reflexivity].
  apply Qeq_bool_iff in E. unfold Qeq in E. simpl in E.
  destruct l; [contradiction | simpl in E; lia].
Qed.

Lemma insert_sorted_perm x l : Permutation (insert_sorted x l) (x :: l).
Proof.
  induction l as [| y l IH]; simpl.
  - apply Permutation_refl.
  - destruct (Qle_bool y x).
    + apply perm_trans with (y :: x :: l).
      * apply perm_skip. exact IH.
      * apply perm_swap.
    + apply Permutation_refl.
Qed.

Lemma insert_sorted_hd x y l :
  (y <= x)%Q -> HdRel Qle y l -> HdRel Qle y (insert_sorted x l).
Proof.
  intros Hyx Hl. destruct l as [| z l]; simpl.
  - constructor. exact Hyx.
  - destruct (Qle_bool z x); constructor.
    + inversion Hl. assumption.
    + exact Hyx.
Qed.

Lemma insert_sorted_sorted x l :
  Sorted Qle l -> Sorted Qle (insert_sorted x l).
Proof.
  induction 1 as [| y l Hs IH Hhd]; simpl.
  - repeat constructor.
  - destruct (Qle_bool y x) eqn:E.
    + apply Qle_bool_iff in E. constructor; [exact IH |].
      apply insert_sorted_hd; assumption.
    + constructor; [constructor; assumption |].
      constructor. apply Qlt_le_weak. apply Qnot_le_lt.
      intros Hle. apply Qle_bool_iff in Hle. congruence.
Qed.

Lemma py_sort_from acc l :
  Permutation (fold_left (fun acc x => insert_sorted x acc) l acc) (l ++ acc)
  /\ (Sorted Qle acc ->
      Sorted Qle (fold_left (fun acc x => insert_sorted x acc) l acc)).
Proof.
  revert acc. induction l as [| x l IH]; intros acc; simpl.
  - split; [apply Permutation_refl | tauto].
  - destruct (IH (insert_sorted x acc)) as [Hp Hs]. split.
    + apply perm_trans with (l ++ insert_sorted x acc); [exact Hp |].
      apply perm_trans with (l ++ x :: acc).
      * apply Permutation_app_head. apply insert_sorted_perm.
      * apply Permutation_sym. apply Permutation_middle.
    + intros Hacc. apply Hs. apply insert_sorted_sorted. exact Hacc.
Qed.

Lemma py_sort_perm l : Permutation (py_sort l) l.
Proof.
  unfold py_sort. destruct (py_sort_from [] l) as [Hp _].
  rewrite app_nil_r in Hp. exact Hp.
Qed.

Lemma py_sort_sorted l : Sorted Qle (py_sort l).
Proof.
  unfold py_sort. destruct (py_sort_from [] l) as [_ Hs].
  apply Hs. constructor.
Qed.

Lemma py_sort_length l : List.length (py_sort l) = List.length l.
Proof. apply Permutation_length. apply py_sort_perm. Qed.

Lemma filled_set k d name name' l :
  List.length l = k -> filled k d name' -> filled k (dict_set name l d) name'.
Proof.
  intros Hl (l' & Hget & Hlen).
  destruct (string_dec name' name) as [-> | Hne].
  - exists l. split; [apply dict_get_set | exact Hl].
  - exists l'. split; [| exact Hlen].
    rewrite dict_get_set_other by exact Hne. exact Hget.
Qed.

(** What the plots are handed: for every model in turn the sorted list,
    which is put back into the dictionary. *)
Lemma plot_loop (axis : nat * nat) (d0 : list (string * list Q))
    (ms : list (string * entry obj)) :
  forall d w d' w',
    (forall name l', dict_get name d = Some l' ->
                     exists l, dict_get name d0 = Some l /\ Permutation l' l) ->
    for_each ms
      (fun (item : string * entry obj) d =>
         let '(name, _) := item in
         l <- lookup name d ;;
         let l := py_sort l in
         emit (EvPlot axis name l) ;;;
         ret (dict_set name l d)) d w = (Ok d', w') ->
    (forall name l', dict_get name d' = Some l' ->
                     exists l, dict_get name d0 = Some l /\ Permutation l' l)
    /\ exists evs,
         w' = mk_world (tempdir w) (slot w) (now w) (trace w ++ evs) /\
         Forall2 (fun (item : string * entry obj) ev =>
                    exists ys l,
                      ev = EvPlot axis (fst item) ys /\
                      dict_get (fst item) d0 = Some l /\
                      Permutation ys l /\ Sorted Qle ys)
                 ms evs.
Proof.
  induction ms as [| [name e] ms IH]; intros d w d' w' Hd H.
  - simpl in H. unfold ret in H. inversion H. subst.
    split; [exact Hd |]. exists []. split; [| constructor].
    rewrite app_nil_r. destruct w'. reflexivity.
  - cbn [for_each] in H. step H as d1 w1 Hm.
    step Hm as l w0 Hl. unfold lookup in Hl.
    destruct (dict_get name d) as [l0 |] eqn:Eget; [| discriminate Hl].
    unfold ret in Hl. inversion Hl. subst l0 w0. clear Hl.
    step Hm as u w2 He. apply emit_ok in He. subst w2.
    unfold ret in Hm. inversion Hm. subst d1 w1. clear Hm.
    destruct (Hd name l Eget) as (l0 & Hget0 & Hperm0).
    apply IH in H.
    + destruct H as (Hd' & evs & -> & Hall). split; [exact Hd' |].
      exists (EvPlot axis name (py_sort l) :: evs). simpl.
      split; [rewrite <- app_assoc; reflexivity |].
      constructor; [| exact Hall].
      exists (py_sort l), l0. simpl. repeat split.
      * exact Hget0.
      * apply perm_trans with l; [apply py_sort_perm | exact Hperm0].
      * apply py_sort_sorted.
    + intros name' l' Hget'.
      destruct (string_dec name' name) as [-> | Hne].
      * rewrite dict_get_set in Hget'. inversion Hget'. subst l'.
        exists l0. split; [exact Hget0 |].
        apply perm_trans with l; [apply py_sort_perm | exact Hperm0].
      * rewrite dict_get_set_other in Hget' by exact Hne.
        apply Hd. exact Hget'.
Qed.

(** X11. [plot_sorted] hands matplotlib, for every model in the order of
    registration, a list in ascending order that is a rearrangement of
    the list the dictionary had under the model's name; it touches
    neither the slot nor the clock. *)
Theorem plots_are_sorted_rearrangements (self : llimcobe obj)
    (axis : nat * nat) d w d' w' :
  plot_sorted self axis d w = (Ok d', w') ->
  exists evs,
    w' = mk_world (tempdir w) (slot w) (now w) (trace w ++ evs) /\
    Forall2 (fun (item : string * entry obj) ev =>
               exists ys l,
                 ev = EvPlot axis (fst item) ys /\
                 dict_get (fst item) d = Some l /\
                 Permutation ys l /\ Sorted Qle ys)
            (models self) evs.
Proof.
  intros H. unfold plot_sorted in H.
  apply (plot_loop axis d) in H.
  - destruct H as (_ & evs & Hw & Hall). exists evs. split; assumption.
  - intros name l' Hget. exists l'. split; [exact Hget | apply Permutation_refl].
Qed.

(** The loop of the report, over any list of models. *)
Lemma report_loop (al : all_metrics) (ms : list (string * entry obj)) :
  forall w u w',
    for_each ms (report_model (obj := obj) al) tt w = (Ok u, w') ->
    exists rows,
      w' = mk_world (tempdir w) (slot w) (now w) (trace w ++ List.concat rows) /\
      Forall2 (fun (item : string * entry obj) row =>
                 exists la lb lc a b c,
                   dict_get (fst item) (all_bpsp al) = Some la /\
                   mean la = Ok a /\
                   dict_get (fst item) (all_throughput al) = Some lb /\
                   mean lb = Ok b /\
                   dict_get (fst item) (all_dthroughput al) = Some lc /\
                   mean lc = Ok c /\
                   row = [EvPrint (fst item) CompressionRate a;
                          EvPrint (fst item) CompressionThroughput b;
                          EvPrint (fst item) DecompressionThroughput c])
              ms rows.
Proof.
  induction ms as [| [name e] ms IH]; intros w u w' H.
  - simpl in H. unfold ret in H. inversion H. subst.
    exists []. split; [| constructor].
    simpl. rewrite app_nil_r. destruct w'. reflexivity.
  - cbn [for_each] in H. step H as u1 w1 Hm. destruct u1.
    unfold report_model in Hm.
    step Hm as la v1 Hla. unfold lookup in Hla.
    destruct (dict_get name (all_bpsp al)) as [la' |] eqn:Ea;
      [| discriminate Hla].
    unfold ret in Hla. inversion Hla. subst la' v1. clear Hla.
    step Hm as a v2 Ha. apply lift_ok in Ha. destruct Ha as [Ha ->].
    step Hm as u2 v3 He1. apply emit_ok in He1. subst v3.
    step Hm as lb v4 Hlb. unfold lookup in Hlb.
    destruct (dict_get name (all_throughput al)) as [lb' |] eqn:Eb;
      [| discriminate Hlb].
    unfold ret in Hlb. inversion Hlb. subst lb' v4. clear Hlb.
    step Hm as b v5 Hb. apply lift_ok in Hb. destruct Hb as [Hb ->].
    step Hm as u3 v6 He2. apply emit_ok in He2. subst v6.
    step Hm as lc v7 Hlc. unfold lookup in Hlc.
    destruct (dict_get name (all_dthroughput al)) as [lc' |] eqn:Ec;
      [| discriminate Hlc].
    unfold ret in Hlc. inversion Hlc. subst lc' v7. clear Hlc.
    step Hm as c v8 Hc. apply lift_ok in Hc. destruct Hc as [Hc ->].
    apply emit_ok in Hm. subst w1.
    apply IH in H. destruct H as (rows & -> & Hall).
    exists ([EvPrint name CompressionRate a;
             EvPrint name CompressionThroughput b;
             EvPrint name DecompressionThroughput c] :: rows).
    split.
    + simpl. repeat rewrite <- app_assoc. reflexivity.
    + constructor; [| exact Hall].
      exists la, lb, lc, a, b, c. simpl. repeat split; assumption.
Qed.

(** X12. A completed report has printed, for every model in the order of
    registration, three lines: the mean of its bpsp list, of its
    compression throughputs and of its decompression throughputs, in this
    order; it touches neither the slot nor the clock. *)
Theorem report_prints_three_means (self : llimcobe obj) al w w' :
  report self al w = (Ok tt, w') ->
  exists rows,
    w' = mk_world (tempdir w) (slot w) (now w) (trace w ++ List.concat rows) /\
    Forall2 (fun (item : string * entry obj) row =>
               exists la lb lc a b c,
                 dict_get (fst item) (all_bpsp al) = Some la /\
                 mean la = Ok a /\
                 dict_get (fst item) (all_throughput al) = Some lb /\
                 mean lb = Ok b /\
                 dict_get (fst item) (all_dthroughput al) = Some lc /\
                 mean lc = Ok c /\
                 row = [EvPrint (fst item) CompressionRate a;
                        EvPrint (fst item) CompressionThroughput b;
                        EvPrint (fst item) DecompressionThroughput c])
            (models self) rows.
Proof. unfold report. apply report_loop. Qed.

(** *** A measurement with at least one image is reported in full *)

(** A completed pass stores lists of as many numbers as there were
    items to measure. *)
Lemma benchmark_model_fills (self : llimcobe obj) n name e al f w al' f' w' :
  benchmark_model show ticks self n (name, e) (al, f) w = (Ok (al', f'), w') ->
  let k := Nat.min (List.length (dataset self))
             (Nat.min (List.length (lens self)) (Z.to_nat n)) in
  measured k al' name /\
  forall name', measured k al name' -> measured k al' name'.
Proof.
  intros H. apply benchmark_model_ok in H.
  destruct H as (xs & ms & Hxs & Hloop & ->).
  apply measure_loop_effects in Hloop.
  destruct Hloop as (_ & Hb & Hc & Hd & _).
  rewrite zip3_length, py_range_length in Hb, Hc, Hd.
  apply Forall2_length in Hxs. rewrite <- Hxs in Hb, Hc, Hd.
  simpl in Hb, Hc, Hd. rewrite Nat.add_0_r in Hb, Hc, Hd.
  cbv zeta. split.
  - repeat split; eexists; (split; [apply dict_get_set | assumption]).
  - intros name' (H1 & H2 & H3).
    repeat split; apply filled_set; assumption.
Qed.

Lemma measurement_fills (self : llimcobe obj) n ms :
  forall al f w al' f' w',
    for_each ms (benchmark_model show ticks self n) (al, f) w
    = (Ok (al', f'), w') ->
    let k := Nat.min (List.length (dataset self))
               (Nat.min (List.length (lens self)) (Z.to_nat n)) in
    forall name,
      In name (map fst ms) \/ measured k al name -> measured k al' name.
Proof.
  induction ms as [| [name0 e0] ms IH]; intros al f w al' f' w' H k name Hn.
  - simpl in H. unfold ret in H. inversion H. subst.
    destruct Hn as [[] | Hn]. exact Hn.
  - cbn [for_each] in H. step H as st1 w1 Hm. destruct st1 as [al1 f1].
    apply benchmark_model_fills in Hm. cbv zeta in Hm.
    destruct Hm as [Hnew Hkeep].
    eapply IH; [exact H |].
    destruct Hn as [[<- | Hn] | Hn].
    + right. exact Hnew.
    + left. exact Hn.
    + right. apply Hkeep. exact Hn.
Qed.

Lemma filled_nonempty k d name :
  (0 < k)%nat -> filled k d name ->
  exists l, dict_get name d = Some l /\ l <> [].
Proof.
  intros Hk (l & Hget & Hlen). exists l. split; [exact Hget |].
  intros ->. simpl in Hlen. lia.
Qed.

Lemma report_loop_runs (al : all_metrics) k (ms : list (string * entry obj)) :
  (0 < k)%nat ->
  (forall item, In item ms -> measured k al (fst item)) ->
  forall w, exists w',
    for_each ms (report_model (obj := obj) al) tt w = (Ok tt, w').
Proof.
  intros Hk. induction ms as [| [name e] ms IH]; intros Hall w.
  - exists w. reflexivity.
  - destruct (Hall (name, e) (or_introl eq_refl)) as (H1 & H2 & H3).
    cbn [fst] in H1, H2, H3.
    destruct (filled_nonempty Hk H1) as (la & Ha & Hna).
    destruct (filled_nonempty Hk H2) as (lb & Hb & Hnb).
    destruct (filled_nonempty Hk H3) as (lc & Hc & Hnc).
    cbn [for_each].
    assert (Hstep : exists w1, report_model al (name, e) tt w = (Ok tt, w1)).
    { unfold report_model, bind, lookup, lift, emit, ret. simpl.
      rewrite Ha, (mean_nonempty Hna). simpl.
      rewrite Hb, (mean_nonempty Hnb). simpl.
      rewrite Hc, (mean_nonempty Hnc). simpl.
      eexists. reflexivity. }
    destruct Hstep as (w1 & Hstep). rewrite (bind_step _ _ _ Hstep).
    apply IH. intros item Hin. apply Hall. right. exact Hin.
Qed.

Lemma plot_loop_runs (axis : nat * nat) k (ms : list (string * entry obj)) :
  forall d w,
    (forall item, In item ms -> filled k d (fst item)) ->
    exists d' w',
      for_each ms
        (fun (item : string * entry obj) d =>
           let '(name, _) := item in
           l <- lookup name d ;;
           let l := py_sort l in
           emit (EvPlot axis name l) ;;;
           ret (dict_set name l d)) d w = (Ok d', w') /\
      forall name, filled k d name -> filled k d' name.
Proof.
  induction ms as [| [name e] ms IH]; intros d w Hall.
  - exists d, w. split; [reflexivity | tauto].
  - destruct (Hall (name, e) (or_introl eq_refl)) as (l & Hget & Hlen).
    cbn [fst] in Hget. cbn [for_each].
    assert (Hkeep : forall name', filled k d name' ->
                                  filled k (dict_set name (py_sort l) d) name').
    { intros name' Hf. apply filled_set; [| exact Hf].
      rewrite py_sort_length. exact Hlen. }
    destruct (IH (dict_set name (py_sort l) d)
                 (mk_world (tempdir w) (slot w) (now w)
                    (trace w ++ [EvPlot axis name (py_sort l)])))
      as (d' & w' & Hrun & Hfill).
    { intros item Hin. apply Hkeep. apply Hall. right. exact Hin. }
    exists d', w'. split.
    + erewrite bind_step; [exact Hrun |].
      unfold bind, lookup, emit, ret. rewrite Hget. reflexivity.
    + intros name' Hf. apply Hfill, Hkeep, Hf.
Qed.

Lemma scatter_loop_runs (axis : nat * nat) k xs ys
    (ms : list (string * entry obj)) :
  (0 < k)%nat ->
  (forall item, In item ms ->
                filled k xs (fst item) /\ filled k ys (fst item)) ->
  forall (idxs : list nat) w, exists w',
    for_each (combine idxs ms)
      (fun (item : nat * (string * entry obj)) (_ : unit) =>
         let '(ix, (name, _)) := item in
         lx <- lookup name xs ;;
         x <- lift (mean lx) ;;
         ly <- lookup name ys ;;
         y <- lift (mean ly) ;;
         emit (EvScatter axis name x y
                 (nth (ix mod List.length markers) markers EmptyString)))
      tt w = (Ok tt, w').
Proof.
  intros Hk. induction ms as [| [name e] ms IH]; intros Hall idxs w.
  - exists w. destruct idxs; reflexivity.
  - destruct idxs as [| ix idxs]; [exists w; reflexivity |].
    destruct (Hall (name, e) (or_introl eq_refl)) as (H1 & H2).
    cbn [fst] in H1, H2.
    destruct (filled_nonempty Hk H1) as (lx & Hx & Hnx).
    destruct (filled_nonempty Hk H2) as (ly & Hy & Hny).
    cbn [combine for_each].
    erewrite bind_step.
    + apply IH. intros item Hin. apply Hall. right. exact Hin.
    + unfold bind, lookup, lift, emit, ret.
      rewrite Hx, (mean_nonempty Hnx), Hy, (mean_nonempty Hny). reflexivity.
Qed.

(** X13. When the measurement completes with at least one image measured
    ([num_images] positive, a dataset that is not empty), [benchmark]
    completes: the means, the sorted plots and the scatter plots raise
    neither [ZeroDivisionError] nor [KeyError]. *)
Theorem benchmark_completes (self : llimcobe obj) n w r w1 :
  0 < n ->
  dataset self <> [] ->
  List.length (lens self) = List.length (dataset self) ->
  benchmark_measure show ticks self n w = (Ok r, w1) ->
  exists w2, benchmark show ticks self n w = (Ok tt, w2).
Proof.
  intros Hn Hds Hlen H. destruct r as [al f].
  set (k := Nat.min (List.length (dataset self))
              (Nat.min (List.length (lens self)) (Z.to_nat n))).
  assert (Hk : (0 < k)%nat).
  { unfold k. rewrite Hlen. destruct (dataset self); [contradiction |].
    cbn [List.length]. lia. }
  assert (Hall : forall item, In item (models self) -> measured k al (fst item)).
  { intros item Hin. unfold benchmark_measure in H.
    eapply measurement_fills; [exact H |]. left.
    apply in_map. exact Hin. }
  unfold benchmark. rewrite (bind_step _ _ _ H).
  destruct (@report_loop_runs al k (models self) Hk Hall w1) as (v1 & Hrep).
  erewrite bind_step; [| exact Hrep].
  destruct (@plot_loop_runs (0, 0)%nat k (models self) (all_bpsp al) v1)
    as (sb & v2 & Hsb & Hfb).
  { intros item Hin. apply (Hall item Hin). }
  erewrite bind_step; [| exact Hsb].
  destruct (@plot_loop_runs (0, 1)%nat k (models self) (all_throughput al) v2)
    as (st & v3 & Hst & Hft).
  { intros item Hin. apply (Hall item Hin). }
  erewrite bind_step; [| exact Hst].
  destruct (@plot_loop_runs (0, 2)%nat k (models self) (all_dthroughput al) v3)
    as (sd & v4 & Hsd & Hfd).
  { intros item Hin. apply (Hall item Hin). }
  erewrite bind_step; [| exact Hsd].
  destruct (@scatter_loop_runs (1, 1)%nat k sb st (models self) Hk
              (fun item Hin =>
                 conj (Hfb _ (proj1 (Hall item Hin)))
                      (Hft _ (proj1 (proj2 (Hall item Hin)))))
              (seq 0 (List.length (models self))) v4) as (v5 & Hs1).
  erewrite bind_step; [| exact Hs1].
  apply (@scatter_loop_runs (1, 2)%nat k sb sd (models self) Hk
           (fun item Hin =>
              conj (Hfb _ (proj1 (Hall item Hin)))
                   (Hfd _ (proj2 (proj2 (Hall item Hin)))))).
Qed.

(** X15. After a completed measurement every registered model has,
    under its name, three lists of the same length: the smaller of
    [num_images] and the length of the dataset.  ([lens] as long as the
    dataset, as the constructor makes it.) *)
Theorem metrics_are_aligned (self : llimcobe obj) n w al f w' :
  List.length (lens self) = List.length (dataset self) ->
  benchmark_measure show ticks self n w = (Ok (al, f), w') ->
  forall name,
    In name (map fst (models self)) ->
    measured (Nat.min (Z.to_nat n) (List.length (dataset self))) al name.
Proof.
  intros Hlen H name Hin. unfold benchmark_measure in H.
  replace (Nat.min (Z.to_nat n) (List.length (dataset self)))
    with (Nat.min (List.length (dataset self))
            (Nat.min (List.length (lens self)) (Z.to_nat n)))
    by (rewrite Hlen; lia).
  eapply measurement_fills; [exact H |]. left. exact Hin.
Qed.

(** The loop of a scatter plot, over any list of numbered models. *)
Lemma scatter_loop (axis : nat * nat) xs ys
    (items : list (nat * (string * entry obj))) :
  forall w u w',
    for_each items
      (fun (item : nat * (string * entry obj)) (_ : unit) =>
         let '(ix, (name, _)) := item in
         lx <- lookup name xs ;;
         x <- lift (mean lx) ;;
         ly <- lookup name ys ;;
         y <- lift (mean ly) ;;
         emit (EvScatter axis name x y
                 (nth (ix mod List.length markers) markers EmptyString)))
      tt w = (Ok u, w') ->
    exists evs,
      w' = mk_world (tempdir w) (slot w) (now w) (trace w ++ evs) /\
      Forall2 (fun (item : nat * (string * entry obj)) ev =>
                 exists lx ly x y marker,
                   dict_get (fst (snd item)) xs = Some lx /\ mean lx = Ok x /\
                   dict_get (fst (snd item)) ys = Some ly /\ mean ly = Ok y /\
                   nth_error markers (fst item mod 15) = Some marker /\
                   ev = EvScatter axis (fst (snd item)) x y marker)
              items evs.
Proof.
  induction items as [| [ix [name e]] items IH]; intros w u w' H.
  - simpl in H. unfold ret in H. inversion H. subst.
    exists []. split; [| constructor].
    rewrite app_nil_r. destruct w'. reflexivity.
  - cbn [for_each] in H. step H as u1 w1 Hm. destruct u1.
    step Hm as lx v1 Hlx. unfold lookup in Hlx.
    destruct (dict_get name xs) as [lx' |] eqn:Ex; [| discriminate Hlx].
    unfold ret in Hlx. inversion Hlx. subst lx' v1. clear Hlx.
    step Hm as x v2 Hx. apply lift_ok in Hx. destruct Hx as [Hx ->].
    step Hm as ly v3 Hly. unfold lookup in Hly.
    destruct (dict_get name ys) as [ly' |] eqn:Ey; [| discriminate Hly].
    unfold ret in Hly. inversion Hly. subst ly' v3. clear Hly.
    step Hm as y v4 Hy. apply lift_ok in Hy. destruct Hy as [Hy ->].
    apply emit_ok in Hm. subst w1.
    apply IH in H. destruct H as (evs & -> & Hall).
    assert (Hlt : (ix mod 15 < List.length markers)%nat).
    { apply Nat.mod_upper_bound. discriminate. }
    destruct (nth_error markers (ix mod 15)) as [marker |] eqn:Em;
      [| apply nth_error_None in Em; lia].
    exists (EvScatter axis name x y
              (nth (ix mod List.length markers) markers EmptyString) :: evs).
    split.
    + cbn [tempdir slot now trace]. rewrite <- app_assoc. reflexivity.
    + constructor; [| exact Hall].
      exists lx, ly, x, y, marker. cbn [fst snd].
      repeat split; try assumption.
      f_equal. apply nth_error_nth. exact Em.
Qed.

(** X16. A completed scatter plot has handed matplotlib one point per
    model, in the order of registration: the mean of the model's list in
    the first dictionary against the mean of its list in the second, with
    the marker at the model's position modulo 15 in the palette, which
    always exists. *)
Theorem scatter_points (self : llimcobe obj) (axis : nat * nat) xs ys w w' :
  scatter self axis xs ys w = (Ok tt, w') ->
  exists evs,
    w' = mk_world (tempdir w) (slot w) (now w) (trace w ++ evs) /\
    Forall2 (fun (item : nat * (string * entry obj)) ev =>
               exists lx ly x y marker,
                 dict_get (fst (snd item)) xs = Some lx /\ mean lx = Ok x /\
                 dict_get (fst (snd item)) ys = Some ly /\ mean ly = Ok y /\
                 nth_error markers (fst item mod 15) = Some marker /\
                 ev = EvScatter axis (fst (snd item)) x y marker)
            (combine (seq 0 (List.length (models self))) (models self)) evs.
Proof. unfold scatter. apply scatter_loop. Qed.

End RunFurther.

(** ** Registering without [preprocess] *)

(** X14. [set_model] does not look at [preprocess]: a registration
    without it is accepted like any other, and [benchmark] then raises
    [TypeError] at its first call, on the first image of the dataset,
    before anything is measured (here for the only model of an object
    with a dataset that is not empty). *)
Theorem preprocess_is_not_validated {obj} (py_eq : obj -> obj -> result bool)
    (show : obj -> option (result unit)) (ticks : nat -> Q)
    (self self' : llimcobe obj) (k : string)
    (m : option (model_hook obj)) (s : option (save_hook obj))
    (l : option load_hook) (c : option (compare_hook obj))
    (a : ndarray) (ds : list ndarray) n w :
  models self = [] ->
  dataset self = a :: ds ->
  set_model py_eq self (Some k) m None s l c = (true, self') ->
  benchmark show ticks self' n w
  = (Raise TypeError,
     mk_world (tempdir w) (slot w) (now w) (trace w ++ [EvCall k HPreprocess])).
Proof.
  intros Hmodels Hds H. apply set_model_accepted in H.
  destruct H as (k0 & e & Hk & -> & _ & Hp & _). inversion Hk. subst k0.
  unfold benchmark, benchmark_measure. simpl. rewrite Hmodels. simpl.
  unfold benchmark_model. rewrite Hds. simpl.
  unfold bind, call_preprocess, emit, lift. simpl. rewrite Hp. reflexivity.
Qed.

(** ** The further properties on the concrete harness *)

Lemma registry_keeps_well_formed_witness :
  well_formed Ex.harness /\
  well_formed (snd (set_model Ex.array_eq Ex.harness (Some "raw"%string) None
                      (Some Ex.identity) (Some Ex.save_raw) (Some Ex.load_raw)
                      None)) /\
  well_formed (snd (del_model Ex.harness (Some "raw"%string))).
Proof.
  assert (H : well_formed Ex.harness) by (split; [constructor | reflexivity]).
  destruct (registry_keeps_well_formed Ex.array_eq (Some "raw"%string) None
              (Some Ex.identity) (Some Ex.save_raw) (Some Ex.load_raw) None H)
    as (Hset & _ & Hdel & _).
  split; [exact H |]. split; [exact Hset | exact Hdel].
Defined.

Lemma set_model_frame_witness :
  set_model Ex.array_eq Ex.one_codec (Some "flip"%string) None
    (Some Ex.identity) (Some Ex.save_raw) (Some Ex.load_flipped)
    (Some Ex.array_eq)
  = (true, Ex.with_model "flip" Ex.lossy Ex.one_codec) /\
  get_model (Ex.with_model "flip" Ex.lossy Ex.one_codec) (Some "raw"%string)
  = get_model Ex.one_codec (Some "raw"%string) /\
  map fst (models (Ex.with_model "flip" Ex.lossy Ex.one_codec))
  = ["raw"; "flip"]%string.
Proof.
  split; [reflexivity |].
  destruct (set_model_frame Ex.array_eq Ex.one_codec "flip" None
              (Some Ex.identity) (Some Ex.save_raw) (Some Ex.load_flipped)
              (Some Ex.array_eq) eq_refl) as [Hget Hnames].
  split; [apply Hget; discriminate | exact Hnames].
Defined.

Lemma set_then_del_model_witness :
  registered Ex.harness (Some "raw"%string) = false /\
  snd (del_model (Ex.with_model "raw" Ex.lossless Ex.harness)
         (Some "raw"%string))
  = Ex.harness.
Proof.
  split; [reflexivity |].
  apply (proj2 (set_then_del_model Ex.array_eq Ex.harness "raw" None
                  (Some Ex.identity) (Some Ex.save_raw) (Some Ex.load_raw)
                  (Some Ex.array_eq) eq_refl)).
  reflexivity.
Defined.

Lemma hook_failure_propagates_witness :
  let r := measure Ex.no_show Ex.clock "raw" Ex.uncomparable (Ex.image 0, 4, 0)
             (no_metrics, false) Ex.fresh in
  fst r = Raise (HookError "cannot compare") /\
  slot (snd r) = Some (map Ex.byte_of_Z [0; 1; 2; 3]).
Proof.
  apply (proj2 (proj2 (proj2 (proj2
           (hook_failure_propagates Ex.no_show Ex.clock "raw" Ex.uncomparable
              (Ex.image 0) 4 0 no_metrics false Ex.fresh
              (HookError "cannot compare")))))
           Ex.save_raw (Ex.image 0) (Some (map Ex.byte_of_Z [0; 1; 2; 3]))
           Ex.load_raw (Ex.image 0) (Some (map Ex.byte_of_Z [0; 1; 2; 3]))
           (Ex.image 0));
    reflexivity.
Defined.

Lemma missing_artifact_raises_witness :
  let r := measure Ex.no_show Ex.clock "silent" Ex.silent (Ex.image 0, 4, 0)
             (no_metrics, false) Ex.fresh in
  fst r = Raise FileNotFoundError /\
  slot (snd r) = None /\ getsizes (trace (snd r)) = getsizes (trace Ex.fresh).
Proof.
  apply (@missing_artifact_raises ndarray Ex.no_show Ex.clock "silent" Ex.silent
           (Ex.image 0) 4 0 no_metrics false Ex.fresh
           Ex.save_nothing (Ex.image 0) None Ex.load_fixed (Ex.image 0) None
           (Ex.image 0) true);
    reflexivity.
Defined.

Lemma zero_division_after_removal_witness :
  let r := measure Ex.no_show Ex.frozen "raw" Ex.lossless (Ex.image 0, 4, 0)
             (no_metrics, false) Ex.fresh in
  (4 = 0 \/ (Ex.frozen 1 - Ex.frozen 0 == 0)%Q
   \/ (Ex.frozen 3 - Ex.frozen 2 == 0)%Q) /\
  fst r = Raise ZeroDivisionError /\
  slot (snd r) = None /\
  getsizes (trace (snd r)) = getsizes (trace Ex.fresh) ++ [4].
Proof.
  assert (Hz : 4 = 0 \/ (Ex.frozen 1 - Ex.frozen 0 == 0)%Q
               \/ (Ex.frozen 3 - Ex.frozen 2 == 0)%Q)
    by (right; left; reflexivity).
  split; [exact Hz |].
  apply (@zero_division_after_removal ndarray Ex.no_show Ex.frozen "raw"
           Ex.lossless (Ex.image 0) 4 0 no_metrics false Ex.fresh
           Ex.save_raw (Ex.image 0)
           (Some (map Ex.byte_of_Z [0; 1; 2; 3]))
           Ex.load_raw (Ex.image 0)
           (Some (map Ex.byte_of_Z [0; 1; 2; 3]))
           (Ex.image 0) true
           eq_refl eq_refl eq_refl eq_refl eq_refl eq_refl eq_refl
           (map Ex.byte_of_Z [0; 1; 2; 3]) eq_refl Hz).
Defined.

Lemma benchmark_without_models_witness :
  models Ex.harness = [] /\
  benchmark Ex.no_show Ex.clock Ex.harness 3 Ex.fresh = (Ok tt, Ex.fresh).
Proof.
  split; [reflexivity |].
  apply (benchmark_without_models Ex.no_show Ex.clock Ex.harness 3 Ex.fresh).
  reflexivity.
Defined.

Lemma four_clock_readings_per_image_witness :
  exists al' f' w',
    benchmark_model Ex.no_show Ex.clock Ex.one_codec 2
      ("raw"%string, Ex.lossless) (Ex.no_results, false) Ex.fresh
    = (Ok (al', f'), w') /\
    now w' = 8%nat.
Proof.
  destruct (benchmark_model Ex.no_show Ex.clock Ex.one_codec 2
              ("raw"%string, Ex.lossless) (Ex.no_results, false) Ex.fresh)
    as [[[al' f'] | err] w'] eqn:E; [| vm_compute in E; discriminate E].
  exists al', f', w'. split; [reflexivity |].
  rewrite (four_clock_readings_per_image Ex.no_show Ex.clock Ex.one_codec 2
             "raw" Ex.lossless Ex.no_results false Ex.fresh eq_refl E).
  reflexivity.
Defined.

Lemma lossless_run_never_warns_witness :
  exists al f w',
    benchmark_measure Ex.no_show Ex.clock Ex.unchecked 3 Ex.fresh
    = (Ok (al, f), w') /\
    f = false /\
    exists tr, trace w' = trace Ex.fresh ++ tr /\ diagnostics tr = [].
Proof.
  destruct (benchmark_measure Ex.no_show Ex.clock Ex.unchecked 3 Ex.fresh)
    as [[[al f] | err] w'] eqn:E; [| vm_compute in E; discriminate E].
  exists al, f, w'. split; [reflexivity |].
  apply (lossless_run_never_warns Ex.no_show Ex.clock Ex.unchecked 3 Ex.fresh
           (al := al)); [| exact E].
  intros name e [Hin | []]. inversion Hin. reflexivity.
Defined.

Lemma plots_are_sorted_rearrangements_witness :
  exists d' w',
    plot_sorted Ex.one_codec (0, 0)%nat (all_bpsp Ex.sample_results) Ex.fresh
    = (Ok d', w') /\
    exists evs,
      w' = mk_world (tempdir Ex.fresh) (slot Ex.fresh) (now Ex.fresh)
             (trace Ex.fresh ++ evs) /\
      Forall2 (fun (item : string * entry ndarray) ev =>
                 exists ys l,
                   ev = EvPlot (0, 0)%nat (fst item) ys /\
                   dict_get (fst item) (all_bpsp Ex.sample_results) = Some l /\
                   Permutation ys l /\ Sorted Qle ys)
              (models Ex.one_codec) evs.
Proof.
  destruct (plot_sorted Ex.one_codec (0, 0)%nat (all_bpsp Ex.sample_results)
              Ex.fresh) as [[d' | err] w'] eqn:E;
    [| vm_compute in E; discriminate E].
  exists d', w'. split; [reflexivity |].
  exact (plots_are_sorted_rearrangements Ex.one_codec (0, 0)%nat
           (all_bpsp Ex.sample_results) Ex.fresh E).
Defined.

Lemma report_prints_three_means_witness :
  exists w',
    report Ex.one_codec Ex.sample_results Ex.fresh = (Ok tt, w') /\
    exists rows,
      w' = mk_world (tempdir Ex.fresh) (slot Ex.fresh) (now Ex.fresh)
             (trace Ex.fresh ++ List.concat rows) /\
      List.length rows = 1%nat.
Proof.
  eexists. split; [vm_compute; reflexivity |].
  destruct (report_prints_three_means Ex.one_codec Ex.sample_results Ex.fresh
              (w' := snd (report Ex.one_codec Ex.sample_results Ex.fresh))
              eq_refl)
    as (rows & Hw & Hall).
  exists rows. split; [exact Hw |].
  apply Forall2_length in Hall. symmetry. exact Hall.
Defined.

Lemma benchmark_completes_witness :
  0 < 3 /\ dataset Ex.two_codecs <> [] /\
  exists w2, benchmark Ex.no_show Ex.clock Ex.two_codecs 3 Ex.fresh = (Ok tt, w2).
Proof.
  split; [lia |]. split; [discriminate |].
  destruct (benchmark_measure Ex.no_show Ex.clock Ex.two_codecs 3 Ex.fresh)
    as [[r | err] w1] eqn:E; [| vm_compute in E; discriminate E].
  apply (benchmark_completes Ex.no_show Ex.clock Ex.two_codecs (n := 3) Ex.fresh
           (r := r) (w1 := w1)); [lia | discriminate | reflexivity | exact E].
Defined.

Lemma preprocess_is_not_validated_witness :
  set_model Ex.array_eq Ex.harness (Some "bare"%string) None None
    (Some Ex.save_raw) (Some Ex.load_raw) None
  = (true, snd (set_model Ex.array_eq Ex.harness (Some "bare"%string) None None
                  (Some Ex.save_raw) (Some Ex.load_raw) None)) /\
  benchmark Ex.no_show Ex.clock
    (snd (set_model Ex.array_eq Ex.harness (Some "bare"%string) None None
            (Some Ex.save_raw) (Some Ex.load_raw) None)) 3 Ex.fresh
  = (Raise TypeError,
     mk_world true None 0 [EvCall "bare" HPreprocess]).
Proof.
  split; [reflexivity |].
  apply (preprocess_is_not_validated Ex.array_eq Ex.no_show Ex.clock
           Ex.harness "bare" None (Some Ex.save_raw) (Some Ex.load_raw)
           None (a := Ex.image 0) (ds := [Ex.image 10; Ex.image 20]) 3 Ex.fresh
           eq_refl eq_refl eq_refl).
Defined.

Lemma metrics_are_aligned_witness :
  exists al f w',
    benchmark_measure Ex.no_show Ex.clock Ex.two_codecs 2 Ex.fresh
    = (Ok (al, f), w') /\
    measured 2 al "flip" /\ measured 2 al "half".
Proof.
  destruct (benchmark_measure Ex.no_show Ex.clock Ex.two_codecs 2 Ex.fresh)
    as [[[al f] | err] w'] eqn:E; [| vm_compute in E; discriminate E].
  exists al, f, w'. split; [reflexivity |].
  split.
  - apply (metrics_are_aligned Ex.no_show Ex.clock Ex.two_codecs 2 Ex.fresh
             eq_refl E "flip"). left. reflexivity.
  - apply (metrics_are_aligned Ex.no_show Ex.clock Ex.two_codecs 2 Ex.fresh
             eq_refl E "half"). right. left. reflexivity.
Defined.

Lemma scatter_points_witness :
  exists w',
    scatter Ex.one_codec (1, 1)%nat (all_bpsp Ex.sample_results)
      (all_throughput Ex.sample_results) Ex.fresh = (Ok tt, w') /\
    exists evs,
      w' = mk_world (tempdir Ex.fresh) (slot Ex.fresh) (now Ex.fresh)
             (trace Ex.fresh ++ evs) /\
      List.length evs = 1%nat.
Proof.
  destruct (scatter Ex.one_codec (1, 1)%nat (all_bpsp Ex.sample_results)
              (all_throughput Ex.sample_results) Ex.fresh)
    as [[[] | err] w'] eqn:E; [| vm_compute in E; discriminate E].
  exists w'. split; [reflexivity |].
  destruct (scatter_points Ex.one_codec (1, 1)%nat (all_bpsp Ex.sample_results)
              (all_throughput Ex.sample_results) Ex.fresh E)
    as (evs & Hw & Hall).
  exists evs. split; [exact Hw |].
  apply Forall2_length in Hall. symmetry. exact Hall.
Defined.
